(** * Post-quantum benchmarking harness: [QuantumCryptographySimulator]

    A shallow embedding of [PRE/quantum-cryptography.py].  The class wraps the
    external [oqs] provider and the system clock; both are effects, so the
    methods are written in a small state-and-exception monad whose state
    carries the provider's world, the trace of every call that crossed the
    provider or clock boundary, and the records handed to the logger. *)

From Stdlib Require Import ZArith List Bool Lia.
From Stdlib.Strings Require Import String Ascii Byte.
From Stdlib Require Import DecimalString.
Import ListNotations.

Open Scope string_scope.
Open Scope list_scope.
Open Scope Z_scope.

(** ** Python values *)

(** [bytes] objects, [len], and [==] on [bytes]. *)
Definition bytes := list byte.

Definition len {A : Type} (l : list A) : Z := Z.of_nat (List.length l).

Fixpoint bytes_eqb (a b : bytes) : bool :=
  match a, b with
  | [], [] => true
  | x :: a', y :: b' => Byte.eqb x y && bytes_eqb a' b'
  | _, _ => false
  end.

(** [operation_type in ["both", "kem"]]: membership by string equality. *)
Fixpoint str_in (x : string) (l : list string) : bool :=
  match l with
  | [] => false
  | y :: l' => String.eqb x y || str_in x l'
  end.

(** The values stored under [Dict[str, Any]] in [CryptoResult.details]. *)
Inductive Value : Type :=
| VInt (n : Z)
| VBool (b : bool)
| VStr (s : string).

(** Python dictionaries keep their keys in insertion order, and assigning to
    a key that is already present replaces the value in place. *)
Module Dict.

Definition t (V : Type) : Type := list (string * V).

Definition empty {V : Type} : t V := [].

Fixpoint get {V : Type} (d : t V) (k : string) : option V :=
  match d with
  | [] => None
  | (k', v) :: d' => if String.eqb k k' then Some v else get d' k
  end.

Fixpoint set {V : Type} (d : t V) (k : string) (v : V) : t V :=
  match d with
  | [] => [(k, v)]
  | (k', v') :: d' =>
      if String.eqb k k' then (k', v) :: d' else (k', v') :: set d' k v
  end.

Definition keys {V : Type} (d : t V) : list string := map fst d.

Definition mem {V : Type} (d : t V) (k : string) : bool :=
  match get d k with Some _ => true | None => false end.

End Dict.

(** [@dataclass CryptoResult].  [execution_time] is a difference of two clock
    readings; readings are kept exact, as integer multiples of the clock's
    resolution. *)
Record CryptoResult : Type := mkCryptoResult {
  algorithm : string;
  operation : string;
  key_size : Z;
  execution_time : Z;
  success : bool;
  details : Dict.t Value
}.

(** An instance of Python's [Exception], the class that [except Exception]
    catches; [exc_str] is what [str(e)] gives. *)
Record Exception : Type := mkException {
  exc_class : string;
  exc_str : string
}.

Inductive Outcome (A : Type) : Type :=
| Returns (a : A)
| Raises (e : Exception).
Arguments Returns {A} a.
Arguments Raises {A} e.

(** ** The boundary: clock and provider *)

(** Calls that leave the class, in the order they are made. *)
Inductive Event : Type :=
| EvTime
| EvKemNew (alg : string)
| EvKemKeypair
| EvKemEncap (public_key : bytes)
| EvKemDecap (ciphertext : bytes)
| EvKemExit
| EvSigNew (alg : string)
| EvSigKeypair
| EvSigSign (message : bytes)
| EvSigVerify (message signature public_key : bytes)
| EvSigExit
| EvEnabledKem
| EvEnabledSig.

Inductive Level : Type := INFO | WARNING | ERROR.

(** What [oqs.get_enabled_kem_mechanisms()] hands back.  The code takes its
    [len] and its [.keys()]: a mapping has both, a tuple has only the
    first. *)
Inductive Mechanisms : Type :=
| Mapping (names : list string)
| Tuple (names : list string).

(** What the module imports: [time.time] and the [oqs] bindings.  Every call
    may change the world (key material, randomness, the clock itself) and
    every provider call may raise, the two that list the enabled
    mechanisms included.  The two [_exit] fields are the
    [__exit__] methods run when a [with] block is left; they return [None],
    so they never swallow an exception of the block. *)
Record Env : Type := mkEnv {
  World : Type;
  KemSession : Type;
  SigSession : Type;
  time_time : World -> Z * World;
  get_enabled_kem_mechanisms : World -> Outcome Mechanisms * World;
  get_enabled_sig_mechanisms : World -> Outcome Mechanisms * World;
  oqs_KeyEncapsulation : string -> World -> Outcome KemSession * World;
  kem_generate_keypair : KemSession -> World -> Outcome bytes * World;
  kem_encap_secret :
    KemSession -> bytes -> World -> Outcome (bytes * bytes) * World;
  kem_decap_secret : KemSession -> bytes -> World -> Outcome bytes * World;
  kem_exit : KemSession -> World -> Outcome unit * World;
  oqs_Signature : string -> World -> Outcome SigSession * World;
  sig_generate_keypair : SigSession -> World -> Outcome bytes * World;
  sig_sign : SigSession -> bytes -> World -> Outcome bytes * World;
  sig_verify :
    SigSession -> bytes -> bytes -> bytes -> World -> Outcome bool * World;
  sig_exit : SigSession -> World -> Outcome unit * World
}.

(** ** The monad of the methods *)

Section Simulator.

Variable P : Env.

Record State : Type := mkState {
  world : World P;
  trace : list Event;
  logged : list (Level * string)
}.

Definition M (A : Type) : Type := State -> Outcome A * State.

Definition ret {A : Type} (a : A) : M A := fun s => (Returns a, s).

Definition bind {A B : Type} (m : M A) (k : A -> M B) : M B :=
  fun s =>
    match m s with
    | (Returns a, s') => k a s'
    | (Raises e, s') => (Raises e, s')
    end.

(** [try: m / except Exception as e: h e]. *)
Definition try_except {A : Type} (m : M A) (h : Exception -> M A) : M A :=
  fun s =>
    match m s with
    | (Returns a, s') => (Returns a, s')
    | (Raises e, s') => h e s'
    end.

(** [with ctor as x: body x].  The block's outcome, a returned value or an
    exception, is held while [__exit__] runs; an exception of [__exit__]
    replaces it. *)
Definition with_ {H A : Type}
    (ctor : M H) (exit : H -> M unit) (body : H -> M A) : M A :=
  fun s =>
    match ctor s with
    | (Raises e, s1) => (Raises e, s1)
    | (Returns x, s1) =>
        let (r, s2) := body x s1 in
        match exit x s2 with
        | (Returns _, s3) => (r, s3)
        | (Raises e', s3) => (Raises e', s3)
        end
    end.

(** A call across the boundary: run it on the world and record it. *)
Definition call {A : Type} (ev : Event)
    (f : World P -> Outcome A * World P) : M A :=
  fun s =>
    let (r, w') := f (world s) in
    (r, mkState w' (trace s ++ [ev]) (logged s)).

Definition logger (lvl : Level) (msg : string) : M unit :=
  fun s => (Returns tt, mkState (world s) (trace s) (logged s ++ [(lvl, msg)])).

End Simulator.

Arguments ret {P A} a.
Arguments bind {P A B} m k.
Arguments try_except {P A} m h.
Arguments with_ {P H A} ctor exit body.
Arguments call {P A} ev f.
Arguments logger {P} lvl msg.
Arguments mkState {P} world trace logged.
Arguments world {P} s.
Arguments trace {P} s.
Arguments logged {P} s.

Declare Scope py_scope.
Delimit Scope py_scope with py.
Notation "x <- m ;; k" := (bind m (fun x => k))
  (at level 100, m at next level, right associativity) : py_scope.
Notation "' pat <- m ;; k" := (bind m (fun x => match x with pat => k end))
  (at level 100, pat pattern, m at next level, right associativity) : py_scope.
Notation "m ;; k" := (bind m (fun _ => k))
  (at level 100, right associativity) : py_scope.
Open Scope py_scope.

(** ** QuantumCryptographySimulator *)

Section Methods.

Variable P : Env.

Definition time : M P Z :=
  call EvTime (fun w => let (t, w') := time_time P w in (Returns t, w')).

Definition KeyEncapsulation (alg : string) : M P (KemSession P) :=
  call (EvKemNew alg) (oqs_KeyEncapsulation P alg).
Definition generate_keypair (x : KemSession P) : M P bytes :=
  call EvKemKeypair (kem_generate_keypair P x).
Definition encap_secret (x : KemSession P) (pk : bytes) : M P (bytes * bytes) :=
  call (EvKemEncap pk) (kem_encap_secret P x pk).
Definition decap_secret (x : KemSession P) (ct : bytes) : M P bytes :=
  call (EvKemDecap ct) (kem_decap_secret P x ct).
Definition KeyEncapsulation_exit (x : KemSession P) : M P unit :=
  call EvKemExit (kem_exit P x).

Definition Signature (alg : string) : M P (SigSession P) :=
  call (EvSigNew alg) (oqs_Signature P alg).
Definition sig_keypair (x : SigSession P) : M P bytes :=
  call EvSigKeypair (sig_generate_keypair P x).
Definition sign (x : SigSession P) (msg : bytes) : M P bytes :=
  call (EvSigSign msg) (sig_sign P x msg).
Definition verify (x : SigSession P) (msg sg pk : bytes) : M P bool :=
  call (EvSigVerify msg sg pk) (sig_verify P x msg sg pk).
Definition Signature_exit (x : SigSession P) : M P unit :=
  call EvSigExit (sig_exit P x).

(** The block under [try:] in [simulate_kem_exchange]. *)
Definition kem_exchange_body (algorithm : string) (start_time : Z)
  : M P CryptoResult :=
  with_ (KeyEncapsulation algorithm) KeyEncapsulation_exit (fun client =>
  with_ (KeyEncapsulation algorithm) KeyEncapsulation_exit (fun server =>
    public_key <- generate_keypair client ;;
    '(ciphertext, shared_secret_server) <- encap_secret server public_key ;;
    shared_secret_client <- decap_secret client ciphertext ;;
    let success := bytes_eqb shared_secret_client shared_secret_server in
    now <- time ;;
    let execution_time := now - start_time in
    ret (mkCryptoResult algorithm "KEM Exchange" (len public_key)
           execution_time success
           [("public_key_size", VInt (len public_key));
            ("ciphertext_size", VInt (len ciphertext));
            ("shared_secret_size", VInt (len shared_secret_server));
            ("secrets_match", VBool success)]))).

(** The [except Exception as e:] handler of either method. *)
Definition failed_result (algorithm operation : string) (start_time : Z)
    (e : Exception) : M P CryptoResult :=
  now <- time ;;
  let execution_time := now - start_time in
  ret (mkCryptoResult algorithm operation 0 execution_time false
         [("error", VStr (exc_str e))]).

Definition simulate_kem_exchange (algorithm : string) : M P CryptoResult :=
  start_time <- time ;;
  try_except (kem_exchange_body algorithm start_time)
             (failed_result algorithm "KEM Exchange" start_time).

(** The default of the [message] argument. *)
Definition default_message : bytes :=
  list_byte_of_string "Hello, Quantum World!".

(** The block under [try:] in [simulate_digital_signature]. *)
Definition digital_signature_body (algorithm : string) (message : bytes)
    (start_time : Z) : M P CryptoResult :=
  with_ (Signature algorithm) Signature_exit (fun signer =>
  with_ (Signature algorithm) Signature_exit (fun verifier =>
    public_key <- sig_keypair signer ;;
    signature <- sign signer message ;;
    is_valid <- verify verifier message signature public_key ;;
    now <- time ;;
    let execution_time := now - start_time in
    ret (mkCryptoResult algorithm "Digital Signature" (len public_key)
           execution_time is_valid
           [("public_key_size", VInt (len public_key));
            ("signature_size", VInt (len signature));
            ("message_size", VInt (len message));
            ("verification_success", VBool is_valid)]))).

Definition simulate_digital_signature (algorithm : string) (message : bytes)
  : M P CryptoResult :=
  start_time <- time ;;
  try_except (digital_signature_body algorithm message start_time)
             (failed_result algorithm "Digital Signature" start_time).

Definition benchmark_algorithm (algorithm operation_type : string)
  : M P (list CryptoResult) :=
  let results := [] in
  results <-
    (if str_in operation_type ["both"; "kem"] then
       try_except
         (kem_result <- simulate_kem_exchange algorithm ;;
          ret (results ++ [kem_result]))
         (fun e =>
            logger WARNING
              ("KEM operation failed for " ++ algorithm ++ ": " ++ exc_str e)
              %string ;;
            ret results)
     else ret results) ;;
  results <-
    (if str_in operation_type ["both"; "sig"] then
       try_except
         (sig_result <- simulate_digital_signature algorithm default_message ;;
          ret (results ++ [sig_result]))
         (fun e =>
            logger WARNING
              ("Signature operation failed for " ++ algorithm ++ ": "
                 ++ exc_str e)%string ;;
            ret results)
     else ret results) ;;
  ret results.

Definition default_algorithms : list string :=
  ["ML-KEM-512"; "ML-KEM-768"; "ML-KEM-1024";
   "ML-DSA-44"; "ML-DSA-65"; "ML-DSA-87"].

Definition Report : Type := Dict.t (list CryptoResult).

(** One turn of the [for algorithm in algorithms:] loop.  The method called
    is [self.benchmark_algorithm], looked up on the instance; [bench] stands
    for whatever that lookup finds. *)
Definition benchmark_entry (bench : string -> M P (list CryptoResult))
    (algorithm : string) (benchmark_results : Report) : M P Report :=
  logger INFO ("Benchmarking " ++ algorithm ++ "...")%string ;;
  try_except
    (results <- bench algorithm ;;
     ret (Dict.set benchmark_results algorithm results))
    (fun e =>
       logger ERROR
         ("Failed to benchmark " ++ algorithm ++ ": " ++ exc_str e)%string ;;
       ret (Dict.set benchmark_results algorithm [])).

Fixpoint for_algorithms (bench : string -> M P (list CryptoResult))
    (algorithms : list string) (benchmark_results : Report) : M P Report :=
  match algorithms with
  | [] => ret benchmark_results
  | algorithm :: rest =>
      benchmark_results <- benchmark_entry bench algorithm benchmark_results ;;
      for_algorithms bench rest benchmark_results
  end.

Definition run_comprehensive_benchmark_with
    (bench : string -> M P (list CryptoResult))
    (algorithms : option (list string)) : M P Report :=
  let algorithms :=
    match algorithms with
    | None => default_algorithms
    | Some l => l
    end in
  for_algorithms bench algorithms Dict.empty.

(** The class's own method: [benchmark_algorithm] is called with its default
    [operation_type="both"]. *)
Definition run_comprehensive_benchmark (algorithms : option (list string))
  : M P Report :=
  run_comprehensive_benchmark_with
    (fun algorithm => benchmark_algorithm algorithm "both") algorithms.

End Methods.

Arguments simulate_kem_exchange P algorithm s.
Arguments simulate_digital_signature P algorithm message s.
Arguments benchmark_algorithm P algorithm operation_type s.
Arguments run_comprehensive_benchmark P algorithms s.

(** ** A mock provider

    A stand-in for [oqs] with the sizes of ML-KEM-512 and ML-DSA-44, used to
    run the methods on concrete inputs.  The world is the current clock
    reading; a session is the name it was opened for.  Setting up a session,
    a cryptographic call and leaving a session each move the clock by a
    configured amount (a negative amount is a clock that was set back
    meanwhile).  The two fault switches make decapsulation return another
    secret and verification reject. *)
Module Mock.

Record Config : Type := mkConfig {
  setup_cost : Z;
  call_cost : Z;
  exit_cost : Z;
  decap_fault : bool;
  verify_fault : bool
}.

Definition kem_names : list string :=
  ["ML-KEM-512"; "ML-KEM-768"; "ML-KEM-1024"].
Definition sig_names : list string :=
  ["ML-DSA-44"; "ML-DSA-65"; "ML-DSA-87"].

Definition not_supported (alg : string) : Exception :=
  mkException "MechanismNotSupportedError"
              (alg ++ " is not supported by OQS")%string.

Definition public_key : bytes := repeat Byte.x01 800.
Definition ciphertext : bytes := repeat Byte.x02 768.
Definition secret : bytes := repeat Byte.x03 32.
Definition other_secret : bytes := repeat Byte.x04 32.
Definition verification_key : bytes := repeat Byte.x05 1312.
Definition signature : bytes := repeat Byte.x06 2420.

Definition open_ (names : list string) (c : Config) (alg : string) (w : Z)
  : Outcome string * Z :=
  if str_in alg names then (Returns alg, w + setup_cost c)
  else (Raises (not_supported alg), w).

Definition env (c : Config) : Env :=
  mkEnv Z string string
    (fun w => (w, w))
    (fun w => (Returns (Mapping kem_names), w))
    (fun w => (Returns (Mapping sig_names), w))
    (open_ kem_names c)
    (fun _ w => (Returns public_key, w + call_cost c))
    (fun _ _ w => (Returns (ciphertext, secret), w + call_cost c))
    (fun _ _ w =>
       (Returns (if decap_fault c then other_secret else secret),
        w + call_cost c))
    (fun _ w => (Returns tt, w + exit_cost c))
    (open_ sig_names c)
    (fun _ w => (Returns verification_key, w + call_cost c))
    (fun _ _ w => (Returns signature, w + call_cost c))
    (fun _ _ sg pk w =>
       (Returns (negb (verify_fault c) && bytes_eqb sg signature
                   && bytes_eqb pk verification_key),
        w + call_cost c))
    (fun _ w => (Returns tt, w + exit_cost c)).

(** Every boundary crossing takes one tick and nothing goes wrong. *)
Definition sound : Config := mkConfig 1 1 1 false false.

Definition start (c : Config) (now : Z) : State (env c) :=
  @mkState (env c) now [] [].

End Mock.

(** * Vocabulary of the properties *)

(** The entry under ["error"], and the entries that report a size. *)
Definition error_of (r : CryptoResult) : option Value :=
  Dict.get (details r) "error".

Definition size_keys : list string :=
  ["public_key_size"; "ciphertext_size"; "shared_secret_size";
   "signature_size"; "message_size"].

Definition size_metrics (r : CryptoResult) : Dict.t Value :=
  filter (fun kv => str_in (fst kv) size_keys) (details r).

(** The first thing either runner does is read the clock. *)
Definition reading {P : Env} (s : State P) : Z := fst (time_time P (world s)).

Definition tick {P : Env} (s : State P) : State P :=
  mkState (snd (time_time P (world s))) (trace s ++ [EvTime]) (logged s).

(** The two shapes a runner's result can take. *)
Inductive Measured (r : CryptoResult) : Prop :=
| measured_kem (public_key ciphertext shared_secret : bytes) :
    key_size r = len public_key ->
    details r = [("public_key_size", VInt (len public_key));
                 ("ciphertext_size", VInt (len ciphertext));
                 ("shared_secret_size", VInt (len shared_secret));
                 ("secrets_match", VBool (success r))] ->
    Measured r
| measured_sig (public_key signature message : bytes) :
    key_size r = len public_key ->
    details r = [("public_key_size", VInt (len public_key));
                 ("signature_size", VInt (len signature));
                 ("message_size", VInt (len message));
                 ("verification_success", VBool (success r))] ->
    Measured r.

Definition Errored (r : CryptoResult) : Prop :=
  success r = false /\ key_size r = 0 /\
  exists e, details r = [("error", VStr (exc_str e))].

(** The invariant as the specification words it: a successful result has
    size metrics and no error description; a failed one has an error
    description, [key_size = 0], and size metrics that are absent or zero. *)
Definition spec_invariant (r : CryptoResult) : Prop :=
  (success r = true -> size_metrics r <> [] /\ error_of r = None) /\
  (success r = false ->
     error_of r <> None /\ key_size r = 0 /\
     Forall (fun kv => snd kv = VInt 0) (size_metrics r)).

(** The flag a measured result stores next to its sizes. *)
Definition mismatch_recorded (r : CryptoResult) : Prop :=
  Dict.get (details r) "secrets_match" = Some (VBool false) \/
  Dict.get (details r) "verification_success" = Some (VBool false).

(** A provider whose decapsulation yields another secret than the one that
    was encapsulated. *)
Definition mismatching : Mock.Config := Mock.mkConfig 1 1 1 true false.

Definition mismatch_result : CryptoResult :=
  mkCryptoResult "ML-KEM-512" "KEM Exchange" 800 5 false
    [("public_key_size", VInt 800); ("ciphertext_size", VInt 768);
     ("shared_secret_size", VInt 32); ("secrets_match", VBool false)].

(** A provider like the mock one whose [sign] raises. *)
Definition sign_fails : Env :=
  mkEnv Z string string (fun w => (w, w))
    (get_enabled_kem_mechanisms (Mock.env Mock.sound))
    (get_enabled_sig_mechanisms (Mock.env Mock.sound))
    (oqs_KeyEncapsulation (Mock.env Mock.sound))
    (kem_generate_keypair (Mock.env Mock.sound))
    (kem_encap_secret (Mock.env Mock.sound))
    (kem_decap_secret (Mock.env Mock.sound))
    (kem_exit (Mock.env Mock.sound))
    (oqs_Signature (Mock.env Mock.sound))
    (sig_generate_keypair (Mock.env Mock.sound))
    (fun _ _ w =>
       (Raises (mkException "RuntimeError" "Can not sign message"), w))
    (sig_verify (Mock.env Mock.sound))
    (sig_exit (Mock.env Mock.sound)).

(** The attempts [benchmark_algorithm] makes, without its handlers: the KEM
    runner if the type asks for it, then the signature runner if the type
    asks for it. *)
Definition attempts (P : Env) (algorithm operation_type : string)
  : M P (list CryptoResult) :=
  kem <- (if str_in operation_type ["both"; "kem"]
          then r <- simulate_kem_exchange P algorithm ;; ret [r]
          else ret []) ;;
  sig <- (if str_in operation_type ["both"; "sig"]
          then r <- simulate_digital_signature P algorithm default_message ;;
               ret [r]
          else ret []) ;;
  ret (kem ++ sig).

(** The provider refuses to open a session for the name, whatever the
    world: the name belongs to the other family, or is not enabled. *)
Definition kem_rejects (P : Env) (alg : string) : Prop :=
  forall w, exists e w', oqs_KeyEncapsulation P alg w = (Raises e, w').

Definition sig_rejects (P : Env) (alg : string) : Prop :=
  forall w, exists e w', oqs_Signature P alg w = (Raises e, w').

(** The operations an [operation_type] asks for, in the order they run. *)
Definition requested_operations (operation_type : string) : list string :=
  (if str_in operation_type ["both"; "kem"] then ["KEM Exchange"] else []) ++
  (if str_in operation_type ["both"; "sig"] then ["Digital Signature"]
   else []).

(** The provider's answers along a KEM exchange started in world [w]: the
    clock reads [t0]; two sessions open; the client's key pair gives
    [public_key]; the server encapsulates to it, giving [ciphertext] and
    [secret_server]; the client decapsulates [ciphertext] to
    [secret_client]; the clock reads [t1]; the server's session, then the
    client's, are left, in world [w']. *)
Definition kem_answers (P : Env) (alg : string) (w : World P) (t0 : Z)
    (public_key ciphertext secret_server secret_client : bytes) (t1 : Z)
    (w' : World P) : Prop :=
  exists w0 client w1 server w2 w3 w4 w5 w6 w7,
    time_time P w = (t0, w0) /\
    oqs_KeyEncapsulation P alg w0 = (Returns client, w1) /\
    oqs_KeyEncapsulation P alg w1 = (Returns server, w2) /\
    kem_generate_keypair P client w2 = (Returns public_key, w3) /\
    kem_encap_secret P server public_key w3
      = (Returns (ciphertext, secret_server), w4) /\
    kem_decap_secret P client ciphertext w4 = (Returns secret_client, w5) /\
    time_time P w5 = (t1, w6) /\
    kem_exit P server w6 = (Returns tt, w7) /\
    kem_exit P client w7 = (Returns tt, w').

Definition kem_trace (alg : string) (public_key ciphertext : bytes)
  : list Event :=
  [EvTime; EvKemNew alg; EvKemNew alg; EvKemKeypair; EvKemEncap public_key;
   EvKemDecap ciphertext; EvTime; EvKemExit; EvKemExit].

(** The same for a signature round trip on [message]: the signer's key pair
    gives [public_key]; the signer signs [message], giving [signature]; the
    verifier checks [message], [signature] and [public_key], answering
    [is_valid]. *)
Definition sig_answers (P : Env) (alg : string) (message : bytes) (w : World P)
    (t0 : Z) (public_key signature : bytes) (is_valid : bool) (t1 : Z)
    (w' : World P) : Prop :=
  exists w0 signer w1 verifier w2 w3 w4 w5 w6 w7,
    time_time P w = (t0, w0) /\
    oqs_Signature P alg w0 = (Returns signer, w1) /\
    oqs_Signature P alg w1 = (Returns verifier, w2) /\
    sig_generate_keypair P signer w2 = (Returns public_key, w3) /\
    sig_sign P signer message w3 = (Returns signature, w4) /\
    sig_verify P verifier message signature public_key w4
      = (Returns is_valid, w5) /\
    time_time P w5 = (t1, w6) /\
    sig_exit P verifier w6 = (Returns tt, w7) /\
    sig_exit P signer w7 = (Returns tt, w').

Definition sig_trace (alg : string) (message public_key signature : bytes)
  : list Event :=
  [EvTime; EvSigNew alg; EvSigNew alg; EvSigKeypair; EvSigSign message;
   EvSigVerify message signature public_key; EvTime; EvSigExit; EvSigExit].



(** What an assignment does to the order of the keys: a known key keeps its
    place, a new key goes to the end. *)
Definition add_key (ks : list string) (k : string) : list string :=
  if str_in k ks then ks else ks ++ [k].

(** The names of a list, each kept at its first occurrence. *)
Fixpoint dedup (l : list string) : list string :=
  match l with
  | [] => []
  | x :: l' => x :: filter (fun y => negb (String.eqb y x)) (dedup l')
  end.

(** The state once the loop has announced [alg], and once it has reported
    that benchmarking [alg] raised [e]. *)
Definition announced {P : Env} (alg : string) (s : State P) : State P :=
  mkState (world s) (trace s)
    (logged s ++ [(INFO, "Benchmarking " ++ alg ++ "...")%string]).

Definition complained {P : Env} (alg : string) (e : Exception)
    (s : State P)
  : State P :=
  mkState (world s) (trace s)
    (logged s
       ++ [(ERROR, "Failed to benchmark " ++ alg ++ ": " ++ exc_str e)%string]).

(** The schedule in the specification's words: the algorithms in the order
    given; for each, the KEM exchange, then the signature; every pair once.
    There is no handler and no second attempt anywhere in it. *)
Fixpoint spec_schedule (P : Env) (algs : list string)
  : M P (list (string * list CryptoResult)) :=
  match algs with
  | [] => ret []
  | alg :: rest =>
      logger INFO ("Benchmarking " ++ alg ++ "...")%string ;;
      kem <- simulate_kem_exchange P alg ;;
      sig <- simulate_digital_signature P alg default_message ;;
      entries <- spec_schedule P rest ;;
      ret ((alg, [kem; sig]) :: entries)
  end.

(** Filing the entries into the report, one assignment each. *)
Definition file_entries (entries : list (string * list CryptoResult))
    (d : Report) : Report :=
  fold_left (fun d e => Dict.set d (fst e) (snd e)) entries d.

(** A [benchmark_algorithm] overridden to raise on one name. *)
Definition raising_bench (P : Env) (bad : string) (alg : string)
  : M P (list CryptoResult) :=
  fun s =>
    if String.eqb alg bad
    then (Raises (mkException "RuntimeError" "provider unavailable"), s)
    else benchmark_algorithm P alg "both" s.

(** * The reporter: [print_benchmark_summary] *)

(** ** Strings as Python formats them *)

Definition nl : string := String "010"%char "".

(** [s * n]. *)
Fixpoint str_mul (s : string) (n : nat) : string :=
  match n with
  | O => ""
  | S n' => (s ++ str_mul s n')%string
  end.

(** [str] of an [int], and of the values the details hold. *)
Definition str_of_int (n : Z) : string := NilZero.string_of_int (Z.to_int n).

Definition str_of_value (v : Value) : string :=
  match v with
  | VInt n => str_of_int n
  | VBool true => "True"
  | VBool false => "False"
  | VStr s => s
  end.

(** [s.replace(old, new)] for one-character [old] and [new]. *)
Fixpoint replace_char (old new : ascii) (s : string) : string :=
  match s with
  | EmptyString => EmptyString
  | String c s' =>
      String (if Ascii.eqb c old then new else c) (replace_char old new s')
  end.

(** [s.title()] on ASCII text: a letter that follows a letter is lowered, a
    letter that follows anything else is raised. *)
Definition is_lower (c : ascii) : bool :=
  Nat.leb 97 (nat_of_ascii c) && Nat.leb (nat_of_ascii c) 122.

Definition is_upper (c : ascii) : bool :=
  Nat.leb 65 (nat_of_ascii c) && Nat.leb (nat_of_ascii c) 90.

Definition upper (c : ascii) : ascii :=
  if is_lower c then ascii_of_nat (nat_of_ascii c - 32) else c.

Definition lower (c : ascii) : ascii :=
  if is_upper c then ascii_of_nat (nat_of_ascii c + 32) else c.

Fixpoint title_from (previous_is_cased : bool) (s : string) : string :=
  match s with
  | EmptyString => EmptyString
  | String c s' =>
      if is_lower c then
        String (if previous_is_cased then c else upper c) (title_from true s')
      else if is_upper c then
        String (if previous_is_cased then lower c else c) (title_from true s')
      else String c (title_from false s')
  end.

Definition title (s : string) : string := title_from false s.

(** ** The method *)

Section Reporter.

Variable P : Env.

(** The rendering of a time by the format [.6f].  Times are kept as exact
    readings here, so the rendering of floats is left open. *)
Variable format_6f : Z -> string.

(** [for key, value in result.details.items():] *)
Fixpoint for_details (items : Dict.t Value) : M P unit :=
  match items with
  | [] => ret tt
  | (key, value) :: rest =>
      (if negb (String.eqb key "error") then
         logger INFO
           ("    " ++ title (replace_char "_" " " key) ++ ": "
              ++ str_of_value value)%string
       else ret tt) ;;
      for_details rest
  end.

(** [result.details['error']], which raises [KeyError] on a missing key. *)
Definition details_error (result : CryptoResult) : M P Value :=
  match Dict.get (details result) "error" with
  | Some v => ret v
  | None => fun s => (Raises (mkException "KeyError" "'error'"), s)
  end.

(** The body of [for result in results:]. *)
Definition report_result (result : CryptoResult) : M P unit :=
  let status := if success result then "✓ SUCCESS" else "✗ FAILED" in
  logger INFO ("  " ++ operation result ++ ": " ++ status)%string ;;
  logger INFO
    ("    Execution Time: " ++ format_6f (execution_time result)
       ++ " seconds")%string ;;
  logger INFO
    ("    Key Size: " ++ str_of_int (key_size result) ++ " bytes")%string ;;
  if match details result with [] => false | _ => true end
     && negb (Dict.mem (details result) "error")
  then for_details (details result)
  else if Dict.mem (details result) "error" then
    v <- details_error result ;;
    logger INFO ("    Error: " ++ str_of_value v)%string
  else ret tt.

Fixpoint for_results (results : list CryptoResult) : M P unit :=
  match results with
  | [] => ret tt
  | result :: rest => report_result result ;; for_results rest
  end.

(** The body of [for algorithm, results in benchmark_results.items():]. *)
Definition report_entry (algorithm : string) (results : list CryptoResult)
  : M P unit :=
  match results with
  | [] => logger INFO (algorithm ++ ": No results available")%string
  | _ :: _ =>
      logger INFO (nl ++ algorithm ++ ":")%string ;;
      for_results results
  end.

Fixpoint for_items (items : Report) : M P unit :=
  match items with
  | [] => ret tt
  | (algorithm, results) :: rest =>
      report_entry algorithm results ;; for_items rest
  end.

Definition print_benchmark_summary (benchmark_results : Report) : M P unit :=
  logger INFO (nl ++ str_mul "=" 80)%string ;;
  logger INFO "BENCHMARK RESULTS SUMMARY" ;;
  logger INFO (str_mul "=" 80) ;;
  for_items benchmark_results.

End Reporter.

(** ** The text of a summary *)

(** The state after the lines have gone to the logger at level INFO. *)
Definition logs {P : Env} (lines : list string) (s : State P) : State P :=
  mkState (world s) (trace s) (logged s ++ map (pair INFO) lines).

(** The lines below the three common ones: the error alone when there is
    one, otherwise one line for every entry of the details. *)
Definition detail_lines (r : CryptoResult) : list string :=
  match Dict.get (details r) "error" with
  | Some v => [("    Error: " ++ str_of_value v)%string]
  | None =>
      map (fun kv =>
             ("    " ++ title (replace_char "_" " " (fst kv)) ++ ": "
                ++ str_of_value (snd kv))%string)
          (details r)
  end.

Definition result_lines (format_6f : Z -> string) (r : CryptoResult)
  : list string :=
  [("  " ++ operation r ++ ": "
      ++ (if success r then "✓ SUCCESS" else "✗ FAILED"))%string;
   ("    Execution Time: " ++ format_6f (execution_time r)
      ++ " seconds")%string;
   ("    Key Size: " ++ str_of_int (key_size r) ++ " bytes")%string]
  ++ detail_lines r.

Definition entry_lines (format_6f : Z -> string)
    (e : string * list CryptoResult) : list string :=
  match snd e with
  | [] => [(fst e ++ ": No results available")%string]
  | _ :: _ =>
      (nl ++ fst e ++ ":")%string :: flat_map (result_lines format_6f) (snd e)
  end.

Definition summary_header : list string :=
  [(nl ++ str_mul "=" 80)%string; "BENCHMARK RESULTS SUMMARY"; str_mul "=" 80].

Definition summary_lines (format_6f : Z -> string) (d : Report)
  : list string :=
  summary_header ++ flat_map (entry_lines format_6f) d.

(** * The examples of [PRE/simple_quantum_example.py] *)

(** ** Standard output *)

(** The examples [print].  What has been printed is part of the world: the
    provider and the clock act on the world below it and leave the printed
    lines alone. *)
Definition below {P : Env} {A : Type}
    (f : World P -> A * World P) (w : World P * list string)
  : A * (World P * list string) :=
  let (a, w') := f (fst w) in (a, (w', snd w)).

Definition with_stdout (P : Env) : Env :=
  mkEnv (World P * list string) (KemSession P) (SigSession P)
    (below (time_time P))
    (below (get_enabled_kem_mechanisms P))
    (below (get_enabled_sig_mechanisms P))
    (fun alg => below (oqs_KeyEncapsulation P alg))
    (fun x => below (kem_generate_keypair P x))
    (fun x pk => below (kem_encap_secret P x pk))
    (fun x ct => below (kem_decap_secret P x ct))
    (fun x => below (kem_exit P x))
    (fun alg => below (oqs_Signature P alg))
    (fun x => below (sig_generate_keypair P x))
    (fun x msg => below (sig_sign P x msg))
    (fun x msg sg pk => below (sig_verify P x msg sg pk))
    (fun x => below (sig_exit P x)).

Definition stdout {P : Env} (s : State (with_stdout P)) : list string :=
  snd (world s).

Definition print {P : Env} (line : string) : M (with_stdout P) unit :=
  fun s =>
    (Returns tt,
     @mkState (with_stdout P) (fst (world s), snd (world s) ++ [line])
       (trace s) (logged s)).

(** ** Formatting *)

(** [bytes.hex()]: two lower-case digits for every byte. *)
Definition hex_digit (n : nat) : ascii :=
  if Nat.ltb n 10 then ascii_of_nat (48 + n) else ascii_of_nat (87 + n).

Definition hex_of_byte (b : byte) : string :=
  let n := Byte.to_nat b in
  String (hex_digit (Nat.div n 16)) (String (hex_digit (Nat.modulo n 16)) "").

Fixpoint hex (b : bytes) : string :=
  match b with
  | [] => ""
  | x :: b' => (hex_of_byte x ++ hex b')%string
  end.

(** The format [2d]: right-aligned in a field two wide. *)
Definition format_2d (n : Z) : string :=
  let digits := str_of_int n in
  if Nat.ltb (String.length digits) 2 then (" " ++ digits)%string else digits.

(** ** The functions *)

Section Examples.

Variable P : Env.

(** The rendering of a time by the format [.4f]; left open, as [.6f] is. *)
Variable format_4f : Z -> string.

Definition simple_kem_example : M (with_stdout P) unit :=
  print "=== Simple KEM Example ===" ;;
  let kem_alg := "ML-KEM-512" in
  try_except
    (with_ (KeyEncapsulation (with_stdout P) kem_alg)
       (KeyEncapsulation_exit (with_stdout P)) (fun client =>
     with_ (KeyEncapsulation (with_stdout P) kem_alg)
       (KeyEncapsulation_exit (with_stdout P)) (fun server =>
       print ("Using algorithm: " ++ kem_alg)%string ;;
       print "1. Client generating keypair..." ;;
       public_key <- generate_keypair (with_stdout P) client ;;
       print ("   Public key size: " ++ str_of_int (len public_key)
                ++ " bytes")%string ;;
       print "2. Server encapsulating secret..." ;;
       '(ciphertext, shared_secret_server) <-
         encap_secret (with_stdout P) server public_key ;;
       print ("   Ciphertext size: " ++ str_of_int (len ciphertext)
                ++ " bytes")%string ;;
       print ("   Shared secret size: "
                ++ str_of_int (len shared_secret_server) ++ " bytes")%string ;;
       print "3. Client decapsulating secret..." ;;
       shared_secret_client <-
         decap_secret (with_stdout P) client ciphertext ;;
       if bytes_eqb shared_secret_client shared_secret_server then
         print "✓ SUCCESS: Shared secrets match!" ;;
         print ("   Secret: " ++ hex (firstn 16 shared_secret_client)
                  ++ "...")%string
       else print "✗ FAILED: Shared secrets don't match!")))
    (fun e => print ("Error: " ++ exc_str e)%string).

Definition simple_signature_example : M (with_stdout P) unit :=
  print (nl ++ "=== Simple Signature Example ===")%string ;;
  let sig_alg := "ML-DSA-44" in
  let message := list_byte_of_string "Hello, Quantum World!" in
  try_except
    (with_ (Signature (with_stdout P) sig_alg)
       (Signature_exit (with_stdout P)) (fun signer =>
     with_ (Signature (with_stdout P) sig_alg)
       (Signature_exit (with_stdout P)) (fun verifier =>
       print ("Using algorithm: " ++ sig_alg)%string ;;
       print ("Message: " ++ string_of_list_byte message)%string ;;
       print "1. Generating keypair..." ;;
       public_key <- sig_keypair (with_stdout P) signer ;;
       print ("   Public key size: " ++ str_of_int (len public_key)
                ++ " bytes")%string ;;
       print "2. Signing message..." ;;
       signature <- sign (with_stdout P) signer message ;;
       print ("   Signature size: " ++ str_of_int (len signature)
                ++ " bytes")%string ;;
       print "3. Verifying signature..." ;;
       is_valid <- verify (with_stdout P) verifier message signature
                     public_key ;;
       if is_valid then print "✓ SUCCESS: Signature is valid!"
       else print "✗ FAILED: Signature verification failed!")))
    (fun e => print ("Error: " ++ exc_str e)%string).

(** The body of [for alg in kem_algorithms:]. *)
Definition benchmark_one (alg : string) : M (with_stdout P) unit :=
  try_except
    (start_time <- time (with_stdout P) ;;
     with_ (KeyEncapsulation (with_stdout P) alg)
       (KeyEncapsulation_exit (with_stdout P)) (fun client =>
     with_ (KeyEncapsulation (with_stdout P) alg)
       (KeyEncapsulation_exit (with_stdout P)) (fun server =>
       public_key <- generate_keypair (with_stdout P) client ;;
       '(ciphertext, shared_secret_server) <-
         encap_secret (with_stdout P) server public_key ;;
       shared_secret_client <-
         decap_secret (with_stdout P) client ciphertext ;;
       now <- time (with_stdout P) ;;
       let execution_time := now - start_time in
       if bytes_eqb shared_secret_client shared_secret_server then
         print (alg ++ ": ✓ " ++ format_4f execution_time ++ "s (key: "
                  ++ str_of_int (len public_key) ++ "B)")%string
       else print (alg ++ ": ✗ FAILED")%string)))
    (fun e => print (alg ++ ": ✗ ERROR - " ++ exc_str e)%string).

Fixpoint for_kem_algorithms (kem_algorithms : list string)
  : M (with_stdout P) unit :=
  match kem_algorithms with
  | [] => ret tt
  | alg :: rest => benchmark_one alg ;; for_kem_algorithms rest
  end.

Definition benchmark_algorithms : M (with_stdout P) unit :=
  print (nl ++ "=== Algorithm Benchmark ===")%string ;;
  let kem_algorithms := ["ML-KEM-512"; "ML-KEM-768"; "ML-KEM-1024"] in
  for_kem_algorithms kem_algorithms.

(** [for i, alg in enumerate(names):], with [i] the index reached. *)
Fixpoint for_enumerated (i : Z) (names : list string)
  : M (with_stdout P) unit :=
  match names with
  | [] => ret tt
  | alg :: rest =>
      print ("  " ++ format_2d (i + 1) ++ ". " ++ alg)%string ;;
      for_enumerated (i + 1) rest
  end.

(** [len(mechanisms)] and [mechanisms.keys()]; a tuple has no [keys]. *)
Definition mechanisms_len (m : Mechanisms) : Z :=
  match m with
  | Mapping names => len names
  | Tuple names => len names
  end.

Definition mechanisms_keys (m : Mechanisms) : M (with_stdout P) (list string) :=
  match m with
  | Mapping names => ret names
  | Tuple _ =>
      fun s =>
        (Raises (mkException "AttributeError"
                   "'tuple' object has no attribute 'keys'"), s)
  end.

Definition show_available_algorithms : M (with_stdout P) unit :=
  print "=== Available Algorithms ===" ;;
  try_except
    (kem_mechanisms <-
       call EvEnabledKem (get_enabled_kem_mechanisms (with_stdout P)) ;;
     sig_mechanisms <-
       call EvEnabledSig (get_enabled_sig_mechanisms (with_stdout P)) ;;
     print ("KEM Mechanisms (" ++ str_of_int (mechanisms_len kem_mechanisms)
              ++ "):")%string ;;
     kem_names <- mechanisms_keys kem_mechanisms ;;
     for_enumerated 0 (firstn 10 kem_names) ;;
     (if 10 <? mechanisms_len kem_mechanisms then
        print ("      ... and "
                 ++ str_of_int (mechanisms_len kem_mechanisms - 10)
                 ++ " more")%string
      else ret tt) ;;
     print (nl ++ "Signature Mechanisms ("
              ++ str_of_int (mechanisms_len sig_mechanisms) ++ "):")%string ;;
     sig_names <- mechanisms_keys sig_mechanisms ;;
     for_enumerated 0 (firstn 10 sig_names) ;;
     (if 10 <? mechanisms_len sig_mechanisms then
        print ("      ... and "
                 ++ str_of_int (mechanisms_len sig_mechanisms - 10)
                 ++ " more")%string
      else ret tt))
    (fun e => print ("Error getting algorithms: " ++ exc_str e)%string).

End Examples.

(** The state after the lines have been printed. *)
Definition prints {P : Env} (lines : list string) (s : State (with_stdout P))
  : State (with_stdout P) :=
  @mkState (with_stdout P) (fst (world s), snd (world s) ++ lines)
    (trace s) (logged s).

(** The provider's answers along the calls of an exchange, without the
    clock: two sessions open; key pair, encapsulation, decapsulation; the
    server's session, then the client's, are left. *)
Definition kem_session_answers (P : Env) (alg : string) (w : World P)
    (public_key ciphertext secret_server secret_client : bytes)
    (w' : World P) : Prop :=
  exists client w1 server w2 w3 w4 w5 w6,
    oqs_KeyEncapsulation P alg w = (Returns client, w1) /\
    oqs_KeyEncapsulation P alg w1 = (Returns server, w2) /\
    kem_generate_keypair P client w2 = (Returns public_key, w3) /\
    kem_encap_secret P server public_key w3
      = (Returns (ciphertext, secret_server), w4) /\
    kem_decap_secret P client ciphertext w4 = (Returns secret_client, w5) /\
    kem_exit P server w5 = (Returns tt, w6) /\
    kem_exit P client w6 = (Returns tt, w').

Definition sig_session_answers (P : Env) (alg : string) (message : bytes)
    (w : World P) (public_key signature : bytes) (is_valid : bool)
    (w' : World P) : Prop :=
  exists signer w1 verifier w2 w3 w4 w5 w6,
    oqs_Signature P alg w = (Returns signer, w1) /\
    oqs_Signature P alg w1 = (Returns verifier, w2) /\
    sig_generate_keypair P signer w2 = (Returns public_key, w3) /\
    sig_sign P signer message w3 = (Returns signature, w4) /\
    sig_verify P verifier message signature public_key w4
      = (Returns is_valid, w5) /\
    sig_exit P verifier w5 = (Returns tt, w6) /\
    sig_exit P signer w6 = (Returns tt, w').

(** * Vocabulary of the further properties *)

(** An entry as [run_comprehensive_benchmark] writes it: the KEM result,
    then the signature result. *)
Definition two_results (rs : list CryptoResult) : Prop :=
  exists k g,
    rs = [k; g] /\ operation k = "KEM Exchange" /\
    operation g = "Digital Signature".

(** A computation that, however it ends, has only added lines to what was
    printed and has left the log alone. *)
Definition only_prints (P : Env) {A : Type} (m : M (with_stdout P) A)
  : Prop :=
  forall s r s',
    m s = (r, s') ->
    logged s' = logged s /\ exists lines, stdout s' = stdout s ++ lines.

(** A provider that enables no KEM: every request for a KEM session is
    refused. *)
Definition no_kem : Env :=
  mkEnv Z string string (fun w => (w, w))
    (fun w => (Returns (Mapping []), w))
    (get_enabled_sig_mechanisms (Mock.env Mock.sound))
    (Mock.open_ [] Mock.sound)
    (kem_generate_keypair (Mock.env Mock.sound))
    (kem_encap_secret (Mock.env Mock.sound))
    (kem_decap_secret (Mock.env Mock.sound))
    (kem_exit (Mock.env Mock.sound))
    (oqs_Signature (Mock.env Mock.sound))
    (sig_generate_keypair (Mock.env Mock.sound))
    (sig_sign (Mock.env Mock.sound))
    (sig_verify (Mock.env Mock.sound))
    (sig_exit (Mock.env Mock.sound)).

(** What one turn of the loop leaves behind for [alg]: one line, or two when
    leaving a session raised after the outcome was printed, each starting
    with the name; and a trace that starts with the clock and the first
    constructor call. *)
Definition reported (alg : string) (lines : list string) : Prop :=
  lines <> [] /\ (List.length lines <= 2)%nat /\
  Forall (fun l => exists rest, l = (alg ++ ": " ++ rest)%string) lines.

(** The numbered lines of a listing that has reached index [i]. *)
Fixpoint numbered (i : Z) (names : list string) : list string :=
  match names with
  | [] => []
  | alg :: rest =>
      ("  " ++ format_2d (i + 1) ++ ". " ++ alg)%string
      :: numbered (i + 1) rest
  end.

(** The lines shown for one family: its first ten names, numbered from 1,
    and the count of the others when there are more. *)
Definition family_lines (names : list string) : list string :=
  numbered 0 (firstn 10 names)
  ++ (if 10 <? len names
      then [("      ... and " ++ str_of_int (len names - 10)
               ++ " more")%string]
      else []).

(** A provider that hands back its enabled names as tuples. *)
Definition tuple_names : Env :=
  mkEnv Z string string (fun w => (w, w))
    (fun w => (Returns (Tuple Mock.kem_names), w))
    (fun w => (Returns (Tuple Mock.sig_names), w))
    (oqs_KeyEncapsulation (Mock.env Mock.sound))
    (kem_generate_keypair (Mock.env Mock.sound))
    (kem_encap_secret (Mock.env Mock.sound))
    (kem_decap_secret (Mock.env Mock.sound))
    (kem_exit (Mock.env Mock.sound))
    (oqs_Signature (Mock.env Mock.sound))
    (sig_generate_keypair (Mock.env Mock.sound))
    (sig_sign (Mock.env Mock.sound))
    (sig_verify (Mock.env Mock.sound))
    (sig_exit (Mock.env Mock.sound)).

(** Twelve enabled names of one family, three of the other. *)
Definition twelve_kems : Env :=
  mkEnv Z string string (fun w => (w, w))
    (fun w =>
       (Returns (Mapping ["K1"; "K2"; "K3"; "K4"; "K5"; "K6"; "K7"; "K8";
                          "K9"; "K10"; "K11"; "K12"]), w))
    (get_enabled_sig_mechanisms (Mock.env Mock.sound))
    (oqs_KeyEncapsulation (Mock.env Mock.sound))
    (kem_generate_keypair (Mock.env Mock.sound))
    (kem_encap_secret (Mock.env Mock.sound))
    (kem_decap_secret (Mock.env Mock.sound))
    (kem_exit (Mock.env Mock.sound))
    (oqs_Signature (Mock.env Mock.sound))
    (sig_generate_keypair (Mock.env Mock.sound))
    (sig_sign (Mock.env Mock.sound))
    (sig_verify (Mock.env Mock.sound))
    (sig_exit (Mock.env Mock.sound)).

(** Leaving a session. *)
Definition is_exit (ev : Event) : bool :=
  match ev with
  | EvKemExit | EvSigExit => true
  | _ => false
  end.

(** Calls of the KEM interface or of the clock; calls of the signature
    interface or of the clock. *)
Definition kem_or_clock (ev : Event) : bool :=
  match ev with
  | EvTime | EvKemNew _ | EvKemKeypair | EvKemEncap _ | EvKemDecap _
  | EvKemExit => true
  | _ => false
  end.

Definition sig_or_clock (ev : Event) : bool :=
  match ev with
  | EvTime | EvSigNew _ | EvSigKeypair | EvSigSign _ | EvSigVerify _ _ _
  | EvSigExit => true
  | _ => false
  end.

(** How many of the two sessions the provider opens from world [w]. *)
Definition kem_sessions_opened (P : Env) (alg : string) (w : World P) : nat :=
  match oqs_KeyEncapsulation P alg w with
  | (Raises _, _) => 0
  | (Returns _, w1) =>
      match oqs_KeyEncapsulation P alg w1 with
      | (Raises _, _) => 1
      | (Returns _, _) => 2
      end
  end.

Definition sig_sessions_opened (P : Env) (alg : string) (w : World P) : nat :=
  match oqs_Signature P alg w with
  | (Raises _, _) => 0
  | (Returns _, w1) =>
      match oqs_Signature P alg w1 with
      | (Raises _, _) => 1
      | (Returns _, _) => 2
      end
  end.

(** * Properties *)

(** ** Running the monad *)

Section Running.

Variable P : Env.

Lemma bind_returns {A B : Type} (m : M P A) (k : A -> M P B) s a s1 :
  m s = (Returns a, s1) -> bind m k s = k a s1.
Proof. intros H. unfold bind. now rewrite H. Qed.

Lemma bind_raises {A B : Type} (m : M P A) (k : A -> M P B) s e s1 :
  m s = (Raises e, s1) -> bind m k s = (Raises e, s1).
Proof. intros H. unfold bind. now rewrite H. Qed.

Lemma try_returns {A : Type} (m : M P A) h s a s1 :
  m s = (Returns a, s1) -> try_except m h s = (Returns a, s1).
Proof. intros H. unfold try_except. now rewrite H. Qed.

Lemma try_raises {A : Type} (m : M P A) h s e s1 :
  m s = (Raises e, s1) -> try_except m h s = h e s1.
Proof. intros H. unfold try_except. now rewrite H. Qed.

(** Reading the clock never raises. *)
Lemma time_run (s : State P) :
  time P s =
  (Returns (fst (time_time P (world s))),
   mkState (snd (time_time P (world s))) (trace s ++ [EvTime]) (logged s)).
Proof.
  unfold time, call. now destruct (time_time P (world s)).
Qed.

Lemma failed_result_run algorithm operation start_time e (s : State P) :
  failed_result P algorithm operation start_time e s =
  (Returns (mkCryptoResult algorithm operation 0
              (fst (time_time P (world s)) - start_time) false
              [("error", VStr (exc_str e))]),
   mkState (snd (time_time P (world s))) (trace s ++ [EvTime]) (logged s)).
Proof.
  unfold failed_result. rewrite (bind_returns _ _ _ _ _ (time_run s)).
  reflexivity.
Qed.

End Running.

(** ** What a result looks like *)

(** Breaks up the next [match] on the outcome of a call. *)
Ltac run_step :=
  match goal with
  | H : (_, _) = (_, _) |- _ => inversion H; subst; clear H
  | H : context [match ?c with _ => _ end] |- _ =>
      let E := fresh "E" in destruct c eqn:E
  | H : (Raises _, _) = (Returns _, _) |- _ => discriminate H
  | H : (Returns _, _) = (Raises _, _) |- _ => discriminate H
  end.

Section Shapes.

Variable P : Env.

(** A KEM round trip that reaches its [return] reports the three sizes and
    the outcome of the comparison, and nothing under ["error"]. *)
Lemma kem_exchange_body_returns algorithm start_time (s s' : State P) r :
  kem_exchange_body P algorithm start_time s = (Returns r, s') ->
  exists (public_key ciphertext shared_secret : bytes) now ok,
    r = mkCryptoResult algorithm "KEM Exchange" (len public_key)
          (now - start_time) ok
          [("public_key_size", VInt (len public_key));
           ("ciphertext_size", VInt (len ciphertext));
           ("shared_secret_size", VInt (len shared_secret));
           ("secrets_match", VBool ok)].
Proof.
  unfold kem_exchange_body, with_, bind, ret, KeyEncapsulation,
    KeyEncapsulation_exit, generate_keypair, encap_secret, decap_secret,
    time, call.
  intros H. repeat run_step; try discriminate.
  all: eauto 10.
Qed.

Lemma digital_signature_body_returns algorithm message start_time
    (s s' : State P) r :
  digital_signature_body P algorithm message start_time s = (Returns r, s') ->
  exists (public_key signature : bytes) now ok,
    r = mkCryptoResult algorithm "Digital Signature" (len public_key)
          (now - start_time) ok
          [("public_key_size", VInt (len public_key));
           ("signature_size", VInt (len signature));
           ("message_size", VInt (len message));
           ("verification_success", VBool ok)].
Proof.
  unfold digital_signature_body, with_, bind, ret, Signature,
    Signature_exit, sig_keypair, sign, verify, time, call.
  intros H. repeat run_step; try discriminate.
  all: eauto 10.
Qed.

End Shapes.

(** ** The two runners never raise *)

Section Runners.

Variable P : Env.

Lemma simulate_kem_exchange_returns algorithm (s s1 : State P) r :
  kem_exchange_body P algorithm (reading s) (tick s) = (Returns r, s1) ->
  simulate_kem_exchange P algorithm s = (Returns r, s1).
Proof.
  intros H. unfold simulate_kem_exchange.
  rewrite (bind_returns _ _ _ _ _ _ (time_run P s)).
  now apply try_returns.
Qed.

Lemma simulate_kem_exchange_raises algorithm (s s1 : State P) e :
  kem_exchange_body P algorithm (reading s) (tick s) = (Raises e, s1) ->
  simulate_kem_exchange P algorithm s =
  (Returns (mkCryptoResult algorithm "KEM Exchange" 0
              (reading s1 - reading s) false [("error", VStr (exc_str e))]),
   tick s1).
Proof.
  intros H. unfold simulate_kem_exchange.
  rewrite (bind_returns _ _ _ _ _ _ (time_run P s)).
  rewrite (try_raises _ _ _ _ _ _ H). apply failed_result_run.
Qed.

Lemma simulate_digital_signature_returns algorithm message (s s1 : State P) r :
  digital_signature_body P algorithm message (reading s) (tick s)
    = (Returns r, s1) ->
  simulate_digital_signature P algorithm message s = (Returns r, s1).
Proof.
  intros H. unfold simulate_digital_signature.
  rewrite (bind_returns _ _ _ _ _ _ (time_run P s)).
  now apply try_returns.
Qed.

Lemma simulate_digital_signature_raises algorithm message (s s1 : State P) e :
  digital_signature_body P algorithm message (reading s) (tick s)
    = (Raises e, s1) ->
  simulate_digital_signature P algorithm message s =
  (Returns (mkCryptoResult algorithm "Digital Signature" 0
              (reading s1 - reading s) false [("error", VStr (exc_str e))]),
   tick s1).
Proof.
  intros H. unfold simulate_digital_signature.
  rewrite (bind_returns _ _ _ _ _ _ (time_run P s)).
  rewrite (try_raises _ _ _ _ _ _ H). apply failed_result_run.
Qed.

Lemma simulate_kem_exchange_total algorithm (s : State P) :
  exists r s', simulate_kem_exchange P algorithm s = (Returns r, s').
Proof.
  destruct (kem_exchange_body P algorithm (reading s) (tick s))
    as [[r | e] s1] eqn:E.
  - eauto using simulate_kem_exchange_returns.
  - eauto using simulate_kem_exchange_raises.
Qed.

Lemma simulate_digital_signature_total algorithm message (s : State P) :
  exists r s', simulate_digital_signature P algorithm message s
               = (Returns r, s').
Proof.
  destruct (digital_signature_body P algorithm message (reading s) (tick s))
    as [[r | e] s1] eqn:E.
  - eauto using simulate_digital_signature_returns.
  - eauto using simulate_digital_signature_raises.
Qed.

Lemma simulate_kem_exchange_shape algorithm (s s' : State P) r :
  simulate_kem_exchange P algorithm s = (Returns r, s') ->
  Measured r \/ Errored r.
Proof.
  intros H.
  destruct (kem_exchange_body P algorithm (reading s) (tick s))
    as [[r1 | e] s1] eqn:E.
  - rewrite (simulate_kem_exchange_returns _ _ _ _ E) in H.
    inversion H; subst. left.
    destruct (kem_exchange_body_returns _ _ _ _ _ _ E)
      as (pk & ct & ss & now & ok & ->).
    now apply (measured_kem _ pk ct ss).
  - rewrite (simulate_kem_exchange_raises _ _ _ _ E) in H.
    inversion H; subst. right. repeat split; simpl; eauto.
Qed.

Lemma simulate_digital_signature_shape algorithm message (s s' : State P) r :
  simulate_digital_signature P algorithm message s = (Returns r, s') ->
  Measured r \/ Errored r.
Proof.
  intros H.
  destruct (digital_signature_body P algorithm message (reading s) (tick s))
    as [[r1 | e] s1] eqn:E.
  - rewrite (simulate_digital_signature_returns _ _ _ _ _ E) in H.
    inversion H; subst. left.
    destruct (digital_signature_body_returns _ _ _ _ _ _ _ E)
      as (pk & sg & now & ok & ->).
    now apply (measured_sig _ pk sg message).
  - rewrite (simulate_digital_signature_raises _ _ _ _ _ E) in H.
    inversion H; subst. right. repeat split; simpl; eauto.
Qed.

End Runners.

(** ** Success, sizes and error descriptions (C1) *)

Lemma Measured_facts r :
  Measured r ->
  size_metrics r <> [] /\ error_of r = None /\
  (success r = false -> mismatch_recorded r).
Proof.
  intros [pk ct ss Hk Hd | pk sg msg Hk Hd];
    unfold size_metrics, error_of, mismatch_recorded; rewrite Hd; simpl.
  - repeat split; try discriminate. intros ->. now left.
  - repeat split; try discriminate. intros ->. now right.
Qed.

(** A measured result's key size is the size recorded for the public key. *)
Lemma Measured_key_size r :
  Measured r ->
  Dict.get (details r) "public_key_size" = Some (VInt (key_size r)).
Proof.
  intros [pk ct ss Hk Hd | pk sg msg Hk Hd]; rewrite Hd, Hk; reflexivity.
Qed.

Lemma Errored_facts r :
  Errored r ->
  success r = false /\ key_size r = 0 /\ size_metrics r = [] /\
  error_of r <> None.
Proof.
  intros (Hs & Hk & e & Hd). unfold size_metrics, error_of.
  rewrite Hd. simpl. repeat split; auto. discriminate.
Qed.

(** C1, counterexample: on a provider that decapsulates to a different
    secret, the KEM runner returns a failed result that has no error
    description, a key size of 800 and all three size metrics. *)
Lemma C1_mismatch_breaks_invariant :
  exists r s',
    simulate_kem_exchange (Mock.env mismatching) "ML-KEM-512"
      (Mock.start mismatching 0) = (Returns r, s') /\
    success r = false /\ error_of r = None /\ key_size r = 800 /\
    ~ spec_invariant r.
Proof.
  eexists. eexists. split; [vm_compute; reflexivity |].
  repeat split; try reflexivity.
  intros [_ H]. destruct (H eq_refl) as [He _]. now apply He.
Qed.

(** C1, amended: for every result of either runner, on every provider:
    a successful result has size metrics and no error description; a result
    with an error description is failed, has [key_size = 0] and no size
    metrics; a failed result without an error description is a verification
    mismatch, which keeps its size metrics and its key size (the size of
    the public key, as recorded under ["public_key_size"]) and stores the
    [false] flag. *)
Theorem C1_result_invariant (P : Env) algorithm message (s s' : State P) r :
  simulate_kem_exchange P algorithm s = (Returns r, s') \/
  simulate_digital_signature P algorithm message s = (Returns r, s') ->
  (success r = true -> size_metrics r <> [] /\ error_of r = None) /\
  (error_of r <> None ->
     success r = false /\ key_size r = 0 /\ size_metrics r = []) /\
  (success r = false -> error_of r = None ->
     size_metrics r <> [] /\ mismatch_recorded r /\
     Dict.get (details r) "public_key_size" = Some (VInt (key_size r))).
Proof.
  intros H.
  assert (Hshape : Measured r \/ Errored r).
  { destruct H as [H | H].
    - eapply simulate_kem_exchange_shape; eassumption.
    - eapply simulate_digital_signature_shape; eassumption. }
  destruct Hshape as [Hm | He].
  - destruct (Measured_facts _ Hm) as (Hsz & Herr & Hmis).
    split; [| split].
    + auto.
    + intros Hc. now destruct Hc.
    + intros Hf _. split; [exact Hsz |]. split; [exact (Hmis Hf) |].
      now apply Measured_key_size.
  - destruct (Errored_facts _ He) as (Hs & Hk & Hsz & Herr).
    split; [| split].
    + intros Hc. congruence.
    + auto.
    + intros _ Hc. now destruct Herr.
Qed.

Lemma C1_result_invariant_witness :
  fst (simulate_kem_exchange (Mock.env mismatching) "ML-KEM-512"
         (Mock.start mismatching 0)) = Returns mismatch_result /\
  (success mismatch_result = true ->
     size_metrics mismatch_result <> [] /\ error_of mismatch_result = None) /\
  (error_of mismatch_result <> None ->
     success mismatch_result = false /\ key_size mismatch_result = 0 /\
     size_metrics mismatch_result = []) /\
  (success mismatch_result = false -> error_of mismatch_result = None ->
     size_metrics mismatch_result <> [] /\
     mismatch_recorded mismatch_result /\
     Dict.get (details mismatch_result) "public_key_size"
     = Some (VInt (key_size mismatch_result))).
Proof.
  split; [vm_compute; reflexivity |].
  apply (C1_result_invariant (Mock.env mismatching) "ML-KEM-512" []
           (Mock.start mismatching 0)
           (snd (simulate_kem_exchange (Mock.env mismatching) "ML-KEM-512"
                   (Mock.start mismatching 0)))
           mismatch_result).
  left. vm_compute. reflexivity.
Defined.

(** ** Exceptions stop at the runners (C2) *)

(** A constructor that rejects the name makes the block under [try:] raise
    at once, before any session exists. *)
Lemma kem_exchange_body_rejected (P : Env) algorithm start_time
    (s : State P) e w :
  oqs_KeyEncapsulation P algorithm (world s) = (Raises e, w) ->
  kem_exchange_body P algorithm start_time s =
  (Raises e, mkState w (trace s ++ [EvKemNew algorithm]) (logged s)).
Proof.
  intros H. unfold kem_exchange_body, with_, KeyEncapsulation, call.
  now rewrite H.
Qed.

Lemma digital_signature_body_rejected (P : Env) algorithm message start_time
    (s : State P) e w :
  oqs_Signature P algorithm (world s) = (Raises e, w) ->
  digital_signature_body P algorithm message start_time s =
  (Raises e, mkState w (trace s ++ [EvSigNew algorithm]) (logged s)).
Proof.
  intros H. unfold digital_signature_body, with_, Signature, call.
  now rewrite H.
Qed.

(** Follows a runner through every outcome of every call, keeping what the
    provider answered. *)
Ltac split_answers :=
  repeat (cbn -[bytes_eqb len Z.sub];
          match goal with
          | u : unit |- _ => destruct u
          | |- context [match ?c with _ => _ end] =>
              lazymatch c with
              | context [match _ with _ => _ end] => fail
              | _ => first [is_var c; destruct c | destruct c eqn:?]
              end
          end).

(** Either every call of the exchange returned, or the result is the failed
    one.  A call that raises anywhere on the way (a constructor, the key
    pair, the encapsulation, the decapsulation, leaving a session) rules
    out the first, so it forces the second. *)
Lemma simulate_kem_exchange_answers_or_error (P : Env) alg (s : State P) :
  exists r s',
    simulate_kem_exchange P alg s = (Returns r, s') /\
    (Errored r \/
     exists t0 pk ct secret_server secret_client t1 w',
       kem_answers P alg (world s) t0 pk ct secret_server secret_client
         t1 w').
Proof.
  destruct s as [w tr lg].
  unfold simulate_kem_exchange, kem_exchange_body, failed_result.
  unfold KeyEncapsulation, KeyEncapsulation_exit, generate_keypair,
    encap_secret, decap_secret, time, try_except, with_, bind, ret, call.
  split_answers.
  all: eexists; eexists; (split; [reflexivity |]).
  all: first
         [ left; unfold Errored; cbn; repeat split; eexists; reflexivity
         | right; unfold kem_answers; cbn [world];
           do 17 eexists; repeat split; eassumption ].
Qed.

Lemma simulate_digital_signature_answers_or_error (P : Env) alg message
    (s : State P) :
  exists r s',
    simulate_digital_signature P alg message s = (Returns r, s') /\
    (Errored r \/
     exists t0 pk sg is_valid t1 w',
       sig_answers P alg message (world s) t0 pk sg is_valid t1 w').
Proof.
  destruct s as [w tr lg].
  unfold simulate_digital_signature, digital_signature_body, failed_result.
  unfold Signature, Signature_exit, sig_keypair, sign, verify, time,
    try_except, with_, bind, ret, call.
  split_answers.
  all: eexists; eexists; (split; [reflexivity |]).
  all: first
         [ left; unfold Errored; cbn; repeat split; eexists; reflexivity
         | right; unfold sig_answers; cbn [world];
           do 16 eexists; repeat split; eassumption ].
Qed.

(** C2: on every provider, for every algorithm name and state, both runners
    return a result and never raise.  The result is the failed one
    ([success = false], [key_size = 0], the exception's text under
    ["error"]) unless every provider call of the round trip returned: an
    exception raised by a constructor, by the key pair, by the
    encapsulation or decapsulation, by signing or verifying, or on leaving
    a session never reaches the caller and never yields a successful
    result.  Whenever the block under [try:] raises [e], the text recorded
    is [str(e)]. *)
Theorem C2_runners_capture_exceptions (P : Env) algorithm message
    (s : State P) :
  (exists r s',
     simulate_kem_exchange P algorithm s = (Returns r, s') /\
     (Errored r \/
      exists t0 pk ct secret_server secret_client t1 w',
        kem_answers P algorithm (world s) t0 pk ct secret_server
          secret_client t1 w')) /\
  (exists r s',
     simulate_digital_signature P algorithm message s = (Returns r, s') /\
     (Errored r \/
      exists t0 pk sg is_valid t1 w',
        sig_answers P algorithm message (world s) t0 pk sg is_valid t1 w')) /\
  (forall e s1,
     kem_exchange_body P algorithm (reading s) (tick s) = (Raises e, s1) ->
     simulate_kem_exchange P algorithm s =
     (Returns (mkCryptoResult algorithm "KEM Exchange" 0
                 (reading s1 - reading s) false
                 [("error", VStr (exc_str e))]),
      tick s1)) /\
  (forall e s1,
     digital_signature_body P algorithm message (reading s) (tick s)
       = (Raises e, s1) ->
     simulate_digital_signature P algorithm message s =
     (Returns (mkCryptoResult algorithm "Digital Signature" 0
                 (reading s1 - reading s) false
                 [("error", VStr (exc_str e))]),
      tick s1)).
Proof.
  split; [apply simulate_kem_exchange_answers_or_error |].
  split; [apply simulate_digital_signature_answers_or_error |].
  split; intros e s1 H.
  - now apply simulate_kem_exchange_raises.
  - now apply simulate_digital_signature_raises.
Qed.

(** Two providers that raise.  Asked for a KEM under a signature name, the
    mock provider's constructor raises and the runner hands back the failed
    result with the constructor's text.  On a provider whose sessions open
    and whose key pairs are generated but whose [sign] raises, the
    signature runner hands back a failed result as well. *)
Lemma C2_runners_capture_exceptions_witness :
  (fst (kem_exchange_body (Mock.env Mock.sound) "ML-DSA-44" 7
          (tick (Mock.start Mock.sound 7)))
     = Raises (Mock.not_supported "ML-DSA-44") /\
   fst (simulate_kem_exchange (Mock.env Mock.sound) "ML-DSA-44"
          (Mock.start Mock.sound 7))
     = Returns (mkCryptoResult "ML-DSA-44" "KEM Exchange" 0 0 false
                  [("error", VStr "ML-DSA-44 is not supported by OQS")])) /\
  (exists r s',
     simulate_digital_signature sign_fails "ML-DSA-44" default_message
       (@mkState sign_fails 0 [] []) = (Returns r, s') /\
     Errored r).
Proof.
  split.
  - split; [reflexivity |].
    destruct (C2_runners_capture_exceptions (Mock.env Mock.sound)
                "ML-DSA-44" [] (Mock.start Mock.sound 7))
      as (_ & _ & Hk & _).
    rewrite (Hk (Mock.not_supported "ML-DSA-44")
                (mkState (P := Mock.env Mock.sound) 7
                   [EvTime; EvKemNew "ML-DSA-44"] []) eq_refl).
    reflexivity.
  - destruct (C2_runners_capture_exceptions sign_fails "ML-DSA-44"
                default_message (@mkState sign_fails 0 [] []))
      as (_ & (r & s' & Hrun & [Herr | Hans]) & _).
    + exists r, s'. split; [exact Hrun | exact Herr].
    + exfalso.
      destruct Hans as (t0 & pk & sg & ok & t1 & w' & w0 & signer & w1 &
                        verifier & w2 & w3 & w4 & w5 & w6 & w7 &
                        _ & _ & _ & _ & Hsign & _).
      discriminate Hsign.
Defined.

(** What the runner returns on that provider. *)
Example sign_fails_result :
  fst (simulate_digital_signature sign_fails "ML-DSA-44" default_message
         (@mkState sign_fails 0 [] []))
  = Returns (mkCryptoResult "ML-DSA-44" "Digital Signature" 0 5 false
               [("error", VStr "Can not sign message")]).
Proof. vm_compute. reflexivity. Qed.

(** ** One algorithm: [benchmark_algorithm] *)

Section Benchmark.

Variable P : Env.

Lemma simulate_kem_exchange_header alg (s s' : State P) r :
  simulate_kem_exchange P alg s = (Returns r, s') ->
  algorithm r = alg /\ operation r = "KEM Exchange".
Proof.
  intros H.
  destruct (kem_exchange_body P alg (reading s) (tick s))
    as [[r1 | e] s1] eqn:E.
  - rewrite (simulate_kem_exchange_returns _ _ _ _ _ E) in H.
    inversion H; subst.
    destruct (kem_exchange_body_returns _ _ _ _ _ _ E)
      as (pk & ct & ss & now & ok & ->).
    now split.
  - rewrite (simulate_kem_exchange_raises _ _ _ _ _ E) in H.
    inversion H; subst. now split.
Qed.

Lemma simulate_digital_signature_header alg message (s s' : State P) r :
  simulate_digital_signature P alg message s = (Returns r, s') ->
  algorithm r = alg /\ operation r = "Digital Signature".
Proof.
  intros H.
  destruct (digital_signature_body P alg message (reading s) (tick s))
    as [[r1 | e] s1] eqn:E.
  - rewrite (simulate_digital_signature_returns _ _ _ _ _ _ E) in H.
    inversion H; subst.
    destruct (digital_signature_body_returns _ _ _ _ _ _ _ E)
      as (pk & sg & now & ok & ->).
    now split.
  - rewrite (simulate_digital_signature_raises _ _ _ _ _ _ E) in H.
    inversion H; subst. now split.
Qed.

(** The two [except] clauses of [benchmark_algorithm] are never entered. *)
Lemma benchmark_algorithm_attempts algorithm operation_type (s : State P) :
  benchmark_algorithm P algorithm operation_type s =
  attempts P algorithm operation_type s.
Proof.
  unfold benchmark_algorithm, attempts, bind, try_except, ret.
  destruct (str_in operation_type ["both"; "kem"]).
  - destruct (simulate_kem_exchange_total P algorithm s) as (k & s1 & ->).
    destruct (str_in operation_type ["both"; "sig"]).
    + destruct (simulate_digital_signature_total P algorithm
                  default_message s1) as (g & s2 & ->).
      reflexivity.
    + reflexivity.
  - destruct (str_in operation_type ["both"; "sig"]).
    + destruct (simulate_digital_signature_total P algorithm
                  default_message s) as (g & s2 & ->).
      reflexivity.
    + reflexivity.
Qed.

Lemma benchmark_algorithm_both algorithm (s : State P) :
  exists k s1 g s2,
    simulate_kem_exchange P algorithm s = (Returns k, s1) /\
    simulate_digital_signature P algorithm default_message s1
      = (Returns g, s2) /\
    benchmark_algorithm P algorithm "both" s = (Returns [k; g], s2).
Proof.
  destruct (simulate_kem_exchange_total P algorithm s) as (k & s1 & Hk).
  destruct (simulate_digital_signature_total P algorithm default_message s1)
    as (g & s2 & Hg).
  exists k, s1, g, s2. repeat split; auto.
  rewrite benchmark_algorithm_attempts. unfold attempts, bind, ret. simpl.
  now rewrite Hk, Hg.
Qed.

Lemma benchmark_algorithm_total algorithm operation_type (s : State P) :
  exists rs s',
    benchmark_algorithm P algorithm operation_type s = (Returns rs, s').
Proof.
  rewrite benchmark_algorithm_attempts. unfold attempts, bind, ret.
  destruct (str_in operation_type ["both"; "kem"]);
    destruct (str_in operation_type ["both"; "sig"]).
  - destruct (simulate_kem_exchange_total P algorithm s) as (k & s1 & ->).
    destruct (simulate_digital_signature_total P algorithm
                default_message s1) as (g & s2 & ->).
    eauto.
  - destruct (simulate_kem_exchange_total P algorithm s) as (k & s1 & ->).
    eauto.
  - destruct (simulate_digital_signature_total P algorithm
                default_message s) as (g & s2 & ->).
    eauto.
  - eauto.
Qed.

End Benchmark.

(** ** Names the provider rejects (C3) *)

Lemma simulate_kem_exchange_rejected (P : Env) alg (s s' : State P) r :
  kem_rejects P alg ->
  simulate_kem_exchange P alg s = (Returns r, s') -> Errored r.
Proof.
  intros Hrej H. destruct (Hrej (world (tick s))) as (e & w & Hw).
  rewrite (simulate_kem_exchange_raises _ _ _ _ _
             (kem_exchange_body_rejected P alg _ _ _ _ Hw)) in H.
  inversion H; subst. repeat split; simpl; eauto.
Qed.

Lemma simulate_digital_signature_rejected (P : Env) alg message
    (s s' : State P) r :
  sig_rejects P alg ->
  simulate_digital_signature P alg message s = (Returns r, s') -> Errored r.
Proof.
  intros Hrej H. destruct (Hrej (world (tick s))) as (e & w & Hw).
  rewrite (simulate_digital_signature_raises _ _ _ _ _ _
             (digital_signature_body_rejected P alg _ _ _ _ _ Hw)) in H.
  inversion H; subst. repeat split; simpl; eauto.
Qed.

(** C3, counterexample: with the mock provider, which enables ML-KEM-512 as
    a KEM only, [benchmark_algorithm] records the signature attempt as a
    failed result next to the successful KEM one; and for a name in neither
    enabled set the entry holds two failed results, not zero. *)
Lemma C3_rejected_pair_is_recorded_as_failure :
  fst (benchmark_algorithm (Mock.env Mock.sound) "ML-KEM-512" "both"
         (Mock.start Mock.sound 0))
  = Returns
      [mkCryptoResult "ML-KEM-512" "KEM Exchange" 800 5 true
         [("public_key_size", VInt 800); ("ciphertext_size", VInt 768);
          ("shared_secret_size", VInt 32); ("secrets_match", VBool true)];
       mkCryptoResult "ML-KEM-512" "Digital Signature" 0 0 false
         [("error", VStr "ML-KEM-512 is not supported by OQS")]] /\
  fst (get_enabled_kem_mechanisms (Mock.env Mock.sound) 0)
  = Returns (Mapping Mock.kem_names) /\
  fst (get_enabled_sig_mechanisms (Mock.env Mock.sound) 0)
  = Returns (Mapping Mock.sig_names) /\
  str_in "Kyber-R2" (Mock.kem_names ++ Mock.sig_names) = false /\
  fst (benchmark_algorithm (Mock.env Mock.sound) "Kyber-R2" "both"
         (Mock.start Mock.sound 0))
  = Returns
      [mkCryptoResult "Kyber-R2" "KEM Exchange" 0 0 false
         [("error", VStr "Kyber-R2 is not supported by OQS")];
       mkCryptoResult "Kyber-R2" "Digital Signature" 0 0 false
         [("error", VStr "Kyber-R2 is not supported by OQS")]].
Proof. repeat split; vm_compute; reflexivity. Qed.

(** C3, amended: [benchmark_algorithm] returns exactly one result for each
    operation kind its [operation_type] asks for, whatever the family of the
    name; if the provider rejects the name as a KEM the KEM result is a
    failed one ([success = false], [key_size = 0], the error description),
    and likewise for signatures.  Nothing is skipped for a rejected name. *)
Theorem C3_rejected_names_yield_failed_results (P : Env) alg operation_type
    (s : State P) :
  exists rs s',
    benchmark_algorithm P alg operation_type s = (Returns rs, s') /\
    map operation rs = requested_operations operation_type /\
    (kem_rejects P alg ->
     forall r, In r rs -> operation r = "KEM Exchange" -> Errored r) /\
    (sig_rejects P alg ->
     forall r, In r rs -> operation r = "Digital Signature" -> Errored r).
Proof.
  rewrite benchmark_algorithm_attempts.
  unfold attempts, requested_operations, bind, ret.
  destruct (str_in operation_type ["both"; "kem"]);
    destruct (str_in operation_type ["both"; "sig"]).
  - destruct (simulate_kem_exchange_total P alg s) as (k & s1 & Hk).
    destruct (simulate_digital_signature_total P alg default_message s1)
      as (g & s2 & Hg).
    rewrite Hk, Hg. exists [k; g], s2.
    destruct (simulate_kem_exchange_header P _ _ _ _ Hk) as [_ Hko].
    destruct (simulate_digital_signature_header P _ _ _ _ _ Hg) as [_ Hgo].
    simpl. rewrite Hko, Hgo.
    split; [reflexivity |]. split; [reflexivity |]. split.
    + intros Hrej r [<- | [<- | []]] Hop.
      * eapply simulate_kem_exchange_rejected; eassumption.
      * rewrite Hgo in Hop. discriminate.
    + intros Hrej r [<- | [<- | []]] Hop.
      * rewrite Hko in Hop. discriminate.
      * eapply simulate_digital_signature_rejected; eassumption.
  - destruct (simulate_kem_exchange_total P alg s) as (k & s1 & Hk).
    rewrite Hk. exists [k], s1.
    destruct (simulate_kem_exchange_header P _ _ _ _ Hk) as [_ Hko].
    simpl. rewrite Hko. split; [reflexivity |]. split; [reflexivity |]. split.
    + intros Hrej r [<- | []] Hop.
      eapply simulate_kem_exchange_rejected; eassumption.
    + intros Hrej r [<- | []] Hop. rewrite Hko in Hop. discriminate.
  - destruct (simulate_digital_signature_total P alg default_message s)
      as (g & s2 & Hg).
    rewrite Hg. exists [g], s2.
    destruct (simulate_digital_signature_header P _ _ _ _ _ Hg) as [_ Hgo].
    simpl. rewrite Hgo. split; [reflexivity |]. split; [reflexivity |]. split.
    + intros Hrej r [<- | []] Hop. rewrite Hgo in Hop. discriminate.
    + intros Hrej r [<- | []] Hop.
      eapply simulate_digital_signature_rejected; eassumption.
  - exists [], s. split; [reflexivity |]. split; [reflexivity |].
    split; intros _ r [].
Qed.

Lemma C3_rejected_names_yield_failed_results_witness :
  sig_rejects (Mock.env Mock.sound) "ML-KEM-512" /\
  exists rs s',
    benchmark_algorithm (Mock.env Mock.sound) "ML-KEM-512" "both"
      (Mock.start Mock.sound 0) = (Returns rs, s') /\
    map operation rs = ["KEM Exchange"; "Digital Signature"] /\
    forall r, In r rs -> operation r = "Digital Signature" -> Errored r.
Proof.
  assert (Hrej : sig_rejects (Mock.env Mock.sound) "ML-KEM-512").
  { intros w. eexists. eexists. reflexivity. }
  split; [exact Hrej |].
  destruct (C3_rejected_names_yield_failed_results (Mock.env Mock.sound)
              "ML-KEM-512" "both" (Mock.start Mock.sound 0))
    as (rs & s' & Hrun & Hops & _ & Hsig).
  exists rs, s'. split; [exact Hrun |]. split; [exact Hops |].
  exact (Hsig Hrej).
Defined.

(** ** A round trip in which no call raises (C5, C6) *)

Section RoundTrip.

Variable P : Env.

Lemma simulate_kem_exchange_answers alg w t0 pk ct ssB ssA t1 w' tr lg :
  kem_answers P alg w t0 pk ct ssB ssA t1 w' ->
  simulate_kem_exchange P alg (mkState w tr lg) =
  (Returns (mkCryptoResult alg "KEM Exchange" (len pk) (t1 - t0)
              (bytes_eqb ssA ssB)
              [("public_key_size", VInt (len pk));
               ("ciphertext_size", VInt (len ct));
               ("shared_secret_size", VInt (len ssB));
               ("secrets_match", VBool (bytes_eqb ssA ssB))]),
   mkState w' (tr ++ kem_trace alg pk ct) lg).
Proof.
  intros (w0 & client & w1 & server & w2 & w3 & w4 & w5 & w6 & w7 &
          H0 & H1 & H2 & H3 & H4 & H5 & H6 & H7 & H8).
  unfold simulate_kem_exchange, kem_exchange_body, try_except, with_, bind,
    ret, time, KeyEncapsulation, KeyEncapsulation_exit, generate_keypair,
    encap_secret, decap_secret, call, kem_trace.
  cbn. rewrite H0. cbn. rewrite H1. cbn. rewrite H2. cbn. rewrite H3. cbn.
  rewrite H4. cbn. rewrite H5. cbn. rewrite H6. cbn. rewrite H7. cbn.
  rewrite H8. cbn. repeat rewrite <- app_assoc. reflexivity.
Qed.

Lemma simulate_digital_signature_answers alg message w t0 pk sg ok t1 w'
    tr lg :
  sig_answers P alg message w t0 pk sg ok t1 w' ->
  simulate_digital_signature P alg message (mkState w tr lg) =
  (Returns (mkCryptoResult alg "Digital Signature" (len pk) (t1 - t0) ok
              [("public_key_size", VInt (len pk));
               ("signature_size", VInt (len sg));
               ("message_size", VInt (len message));
               ("verification_success", VBool ok)]),
   mkState w' (tr ++ sig_trace alg message pk sg) lg).
Proof.
  intros (w0 & signer & w1 & verifier & w2 & w3 & w4 & w5 & w6 & w7 &
          H0 & H1 & H2 & H3 & H4 & H5 & H6 & H7 & H8).
  unfold simulate_digital_signature, digital_signature_body, try_except,
    with_, bind, ret, time, Signature, Signature_exit, sig_keypair, sign,
    verify, call, sig_trace.
  cbn. rewrite H0. cbn. rewrite H1. cbn. rewrite H2. cbn. rewrite H3. cbn.
  rewrite H4. cbn. rewrite H5. cbn. rewrite H6. cbn. rewrite H7. cbn.
  rewrite H8. cbn. repeat rewrite <- app_assoc. reflexivity.
Qed.

End RoundTrip.

Lemma bytes_eqb_eq (a b : bytes) : bytes_eqb a b = true <-> a = b.
Proof.
  revert b. induction a as [| x a IH]; intros [| y b]; simpl;
    try (split; [discriminate | discriminate]); try tauto.
  rewrite andb_true_iff, IH. split.
  - intros [Hx ->]. f_equal. now apply Byte.byte_dec_bl.
  - intros H. inversion H; subst. split; auto. now apply Byte.byte_dec_lb.
Qed.

(** ** What the timer spans (C4) *)



(** The mock provider's answers along one exchange and one signature. *)
Lemma mock_kem_answers :
  kem_answers (Mock.env Mock.sound) "ML-KEM-512" 100 100
    Mock.public_key Mock.ciphertext Mock.secret Mock.secret 105 107.
Proof.
  unfold kem_answers. cbn.
  exists 100, "ML-KEM-512", 101, "ML-KEM-512", 102, 103, 104, 105, 105, 106.
  repeat split.
Qed.

Lemma mock_sig_answers :
  sig_answers (Mock.env Mock.sound) "ML-DSA-44" default_message 100 100
    Mock.verification_key Mock.signature true 105 107.
Proof.
  unfold sig_answers. cbn.
  exists 100, "ML-DSA-44", 101, "ML-DSA-44", 102, 103, 104, 105, 105, 106.
  repeat split.
Qed.


(** ** The KEM exchange (C5) *)

(** C5: when no provider call raises, [simulate_kem_exchange] makes the
    calls of the protocol in order (the client's key pair, the server's
    encapsulation against that public key, the client's decapsulation of
    that ciphertext), returns a result whose [success] is true exactly when
    the client's secret equals the server's, byte for byte, and records the
    sizes of the public key, the ciphertext and the shared secret. *)
Theorem C5_kem_exchange_protocol (P : Env) alg (s : State P)
    t0 pk ct secret_server secret_client t1 w' :
  kem_answers P alg (world s) t0 pk ct secret_server secret_client t1 w' ->
  exists r,
    simulate_kem_exchange P alg s
      = (Returns r, mkState w' (trace s ++ kem_trace alg pk ct) (logged s)) /\
    (success r = true <-> secret_client = secret_server) /\
    algorithm r = alg /\ operation r = "KEM Exchange" /\
    key_size r = len pk /\
    details r = [("public_key_size", VInt (len pk));
                 ("ciphertext_size", VInt (len ct));
                 ("shared_secret_size", VInt (len secret_server));
                 ("secrets_match", VBool (success r))].
Proof.
  intros H. destruct s as [w tr lg]. cbn [world trace logged] in *.
  eexists.
  split; [apply (simulate_kem_exchange_answers P _ _ _ _ _ _ _ _ _ _ _ H) |].
  cbn. split; [apply bytes_eqb_eq |]. repeat split.
Qed.

Lemma C5_kem_exchange_protocol_witness :
  exists r,
    simulate_kem_exchange (Mock.env Mock.sound) "ML-KEM-512"
      (Mock.start Mock.sound 100)
      = (Returns r,
         mkState (P := Mock.env Mock.sound) 107
           (kem_trace "ML-KEM-512" Mock.public_key Mock.ciphertext) []) /\
    (success r = true <-> Mock.secret = Mock.secret) /\
    algorithm r = "ML-KEM-512" /\ operation r = "KEM Exchange" /\
    key_size r = len Mock.public_key /\
    details r = [("public_key_size", VInt (len Mock.public_key));
                 ("ciphertext_size", VInt (len Mock.ciphertext));
                 ("shared_secret_size", VInt (len Mock.secret));
                 ("secrets_match", VBool (success r))].
Proof.
  exact (C5_kem_exchange_protocol (Mock.env Mock.sound) "ML-KEM-512"
           (Mock.start Mock.sound 100) 100 _ _ _ _ 105 107 mock_kem_answers).
Defined.

(** ** The signature round trip (C6) *)

(** C6: when no provider call raises, [simulate_digital_signature] has the
    signer generate a key pair and sign the message, has the verifier check
    that signature against the message and the signer's public key, returns
    a result whose [success] is the verifier's answer, and records the sizes
    of the public key, the signature and the message.  Called as
    [benchmark_algorithm] calls it, the message is the fixed test message of
    21 bytes. *)
Theorem C6_digital_signature_protocol (P : Env) alg message (s : State P)
    t0 pk sg is_valid t1 w' :
  sig_answers P alg message (world s) t0 pk sg is_valid t1 w' ->
  exists r,
    simulate_digital_signature P alg message s
      = (Returns r,
         mkState w' (trace s ++ sig_trace alg message pk sg) (logged s)) /\
    (success r = true <-> is_valid = true) /\
    algorithm r = alg /\ operation r = "Digital Signature" /\
    key_size r = len pk /\
    details r = [("public_key_size", VInt (len pk));
                 ("signature_size", VInt (len sg));
                 ("message_size", VInt (len message));
                 ("verification_success", VBool (success r))] /\
    len default_message = 21.
Proof.
  intros H. destruct s as [w tr lg]. cbn [world trace logged] in *.
  eexists.
  split;
    [apply (simulate_digital_signature_answers P _ _ _ _ _ _ _ _ _ _ _ H) |].
  cbn. repeat split; auto.
Qed.

Lemma C6_digital_signature_protocol_witness :
  exists r,
    simulate_digital_signature (Mock.env Mock.sound) "ML-DSA-44"
      default_message (Mock.start Mock.sound 100)
      = (Returns r,
         mkState (P := Mock.env Mock.sound) 107
           (sig_trace "ML-DSA-44" default_message Mock.verification_key
              Mock.signature) []) /\
    (success r = true <-> true = true) /\
    algorithm r = "ML-DSA-44" /\ operation r = "Digital Signature" /\
    key_size r = len Mock.verification_key /\
    details r = [("public_key_size", VInt (len Mock.verification_key));
                 ("signature_size", VInt (len Mock.signature));
                 ("message_size", VInt (len default_message));
                 ("verification_success", VBool (success r))] /\
    len default_message = 21.
Proof.
  exact (C6_digital_signature_protocol (Mock.env Mock.sound) "ML-DSA-44"
           default_message (Mock.start Mock.sound 100) 100 _ _ _ 105 107
           mock_sig_answers).
Defined.

(** ** Dictionaries *)

Section DictFacts.

Context {V : Type}.

Lemma get_set_same (d : Dict.t V) k v : Dict.get (Dict.set d k v) k = Some v.
Proof.
  induction d as [| [k' v'] d IH]; simpl.
  - now rewrite String.eqb_refl.
  - destruct (String.eqb k k') eqn:E; simpl; rewrite E; auto.
Qed.

Lemma get_set_other (d : Dict.t V) k k' v :
  k' <> k -> Dict.get (Dict.set d k v) k' = Dict.get d k'.
Proof.
  intros Hne. induction d as [| [k0 v0] d IH]; simpl.
  - apply String.eqb_neq in Hne. now rewrite Hne.
  - destruct (String.eqb k k0) eqn:E; simpl.
    + apply String.eqb_eq in E. subst k0.
      apply String.eqb_neq in Hne. now rewrite Hne.
    + now rewrite IH.
Qed.

Lemma keys_set (d : Dict.t V) k v :
  Dict.keys (Dict.set d k v) = add_key (Dict.keys d) k.
Proof.
  unfold add_key, Dict.keys. induction d as [| [k' v'] d IH]; simpl.
  - reflexivity.
  - destruct (String.eqb k k') eqn:E; simpl.
    + apply String.eqb_eq in E. now subst.
    + rewrite IH. now destruct (str_in k (map fst d)).
Qed.

End DictFacts.

Lemma str_in_In x l : str_in x l = true <-> In x l.
Proof.
  induction l as [| y l IH]; simpl.
  - split; [discriminate | tauto].
  - rewrite orb_true_iff, IH, String.eqb_eq. split; intros [H | H]; auto.
Qed.

Lemma str_in_app x l1 l2 : str_in x (l1 ++ l2) = str_in x l1 || str_in x l2.
Proof.
  induction l1 as [| y l1 IH]; simpl; auto. now rewrite IH, orb_assoc.
Qed.

Lemma filter_twice {A : Type} (f g : A -> bool) l :
  filter f (filter g l) = filter (fun x => g x && f x) l.
Proof.
  induction l as [| x l IH]; simpl; auto.
  destruct (g x); simpl; [destruct (f x) |]; now rewrite IH.
Qed.

Lemma filter_all {A : Type} (f : A -> bool) l :
  (forall x, In x l -> f x = true) -> filter f l = l.
Proof.
  induction l as [| x l IH]; simpl; intros H; auto.
  rewrite (H x (or_introl eq_refl)), IH; auto.
Qed.

Lemma In_dedup x l : In x (dedup l) <-> In x l.
Proof.
  induction l as [| y l IH]; simpl; [tauto |].
  rewrite filter_In, IH, negb_true_iff, String.eqb_neq.
  destruct (String.string_dec y x); intuition congruence.
Qed.

Lemma dedup_NoDup l : NoDup l -> dedup l = l.
Proof.
  induction 1 as [| x l Hx Hnd IH]; simpl; auto.
  rewrite IH. f_equal. apply filter_all. intros y Hy.
  apply negb_true_iff, String.eqb_neq. intros ->. contradiction.
Qed.

(** Assigning the names of [l] in turn orders the keys by first
    occurrence. *)
Lemma fold_add_key l ks :
  fold_left add_key l ks
  = ks ++ filter (fun a => negb (str_in a ks)) (dedup l).
Proof.
  revert ks. induction l as [| x l IH]; intros ks; simpl.
  - now rewrite app_nil_r.
  - rewrite IH. unfold add_key. destruct (str_in x ks) eqn:E; simpl.
    + f_equal. rewrite filter_twice. apply filter_ext. intros y.
      destruct (String.eqb y x) eqn:Eyx; simpl; auto.
      apply String.eqb_eq in Eyx. subst y. now rewrite E.
    + rewrite <- app_assoc. simpl. do 2 f_equal.
      rewrite filter_twice. apply filter_ext. intros y.
      rewrite str_in_app. simpl. rewrite orb_false_r, negb_orb.
      apply andb_comm.
Qed.

(** ** The loop over the algorithms *)

Section Loop.

Variable P : Env.
Variable bench : string -> M P (list CryptoResult).

Lemma benchmark_entry_returns alg d (s s1 : State P) rs :
  bench alg (announced alg s) = (Returns rs, s1) ->
  benchmark_entry P bench alg d s = (Returns (Dict.set d alg rs), s1).
Proof.
  intros H. unfold benchmark_entry, bind, try_except, logger, ret.
  fold (announced alg s). now rewrite H.
Qed.

Lemma benchmark_entry_raises alg d (s s1 : State P) e :
  bench alg (announced alg s) = (Raises e, s1) ->
  benchmark_entry P bench alg d s
  = (Returns (Dict.set d alg []), complained alg e s1).
Proof.
  intros H. unfold benchmark_entry, bind, try_except, logger, ret.
  fold (announced alg s). now rewrite H.
Qed.

(** One turn never raises, and assigns to the key of its algorithm. *)
Lemma benchmark_entry_total alg d (s : State P) :
  exists rs s',
    benchmark_entry P bench alg d s = (Returns (Dict.set d alg rs), s').
Proof.
  destruct (bench alg (announced alg s)) as [[rs | e] s1] eqn:E.
  - eauto using benchmark_entry_returns.
  - eauto using benchmark_entry_raises.
Qed.

Lemma for_algorithms_cons alg rest d (s s1 : State P) d1 :
  benchmark_entry P bench alg d s = (Returns d1, s1) ->
  for_algorithms P bench (alg :: rest) d s = for_algorithms P bench rest d1 s1.
Proof. intros H. simpl. unfold bind. now rewrite H. Qed.

Lemma for_algorithms_total algs : forall d (s : State P),
  exists d' s', for_algorithms P bench algs d s = (Returns d', s').
Proof.
  induction algs as [| alg rest IH]; intros d s.
  - exists d, s. reflexivity.
  - destruct (benchmark_entry_total alg d s) as (rs & s1 & H).
    rewrite (for_algorithms_cons _ _ _ _ _ _ H). apply IH.
Qed.

(** The loop over [pre ++ post] is the loop over [pre] followed by the loop
    over [post], started from the report and the state [pre] left. *)
Lemma for_algorithms_app pre post : forall d (s s1 : State P) d1,
  for_algorithms P bench pre d s = (Returns d1, s1) ->
  for_algorithms P bench (pre ++ post) d s = for_algorithms P bench post d1 s1.
Proof.
  induction pre as [| alg pre IH]; intros d s s1 d1 H.
  - inversion H; subst. reflexivity.
  - destruct (benchmark_entry_total alg d s) as (rs & s0 & H0).
    rewrite (for_algorithms_cons _ _ _ _ _ _ H0) in H.
    rewrite <- app_comm_cons, (for_algorithms_cons _ _ _ _ _ _ H0).
    now apply IH.
Qed.

Lemma for_algorithms_keys algs : forall d (s s' : State P) d',
  for_algorithms P bench algs d s = (Returns d', s') ->
  Dict.keys d' = fold_left add_key algs (Dict.keys d).
Proof.
  induction algs as [| alg rest IH]; intros d s s' d' H.
  - inversion H; subst. reflexivity.
  - destruct (benchmark_entry_total alg d s) as (rs & s1 & H1).
    rewrite (for_algorithms_cons _ _ _ _ _ _ H1) in H.
    rewrite (IH _ _ _ _ H), keys_set. reflexivity.
Qed.

(** A name the loop does not visit keeps its entry. *)
Lemma for_algorithms_get_other algs : forall d (s s' : State P) d' a,
  for_algorithms P bench algs d s = (Returns d', s') ->
  ~ In a algs -> Dict.get d' a = Dict.get d a.
Proof.
  induction algs as [| alg rest IH]; intros d s s' d' a H Hnot.
  - inversion H; subst. reflexivity.
  - destruct (benchmark_entry_total alg d s) as (rs & s1 & H1).
    rewrite (for_algorithms_cons _ _ _ _ _ _ H1) in H.
    rewrite (IH _ _ _ _ _ H), get_set_other; auto.
    + intros ->. apply Hnot. now left.
    + intros Hin. apply Hnot. now right.
Qed.

(** The entry of a name is the one written at its last occurrence. *)
Lemma for_algorithms_last pre X post d (s s1 s2 s' : State P) d1 d2 d' :
  ~ In X post ->
  for_algorithms P bench pre d s = (Returns d1, s1) ->
  benchmark_entry P bench X d1 s1 = (Returns d2, s2) ->
  for_algorithms P bench (pre ++ X :: post) d s = (Returns d', s') ->
  Dict.get d' X = Dict.get d2 X.
Proof.
  intros Hnot Hpre HX Hall.
  rewrite (for_algorithms_app _ _ _ _ _ _ Hpre) in Hall.
  rewrite (for_algorithms_cons _ _ _ _ _ _ HX) in Hall.
  eapply for_algorithms_get_other; eassumption.
Qed.

End Loop.

(** Every name of a list has a last occurrence. *)
Lemma last_occurrence (X : string) l :
  In X l -> exists pre post, l = pre ++ X :: post /\ ~ In X post.
Proof.
  induction l as [| y l IH]; intros Hin; [destruct Hin |].
  destruct (in_dec String.string_dec X l) as [Hl | Hl].
  - destruct (IH Hl) as (pre & post & -> & Hnot).
    exists (y :: pre), post. now split.
  - destruct Hin as [-> | Hin]; [| contradiction].
    exists [], l. now split.
Qed.

(** ** One algorithm's failure leaves the others alone (C7) *)

(** C7: for every list of names, on every provider,
    [run_comprehensive_benchmark] returns a report.  For each name [X] of
    the list, taken at its last occurrence, both runners are run on [X] in
    the state left by the names before it, whatever happened to those, and
    the two results are the entry of [X], whatever happens to the names
    after it.  A name that the provider rejects outright gets an entry of
    two failed results. *)
Theorem C7_failures_are_isolated (P : Env) algs (s : State P) :
  exists d s',
    run_comprehensive_benchmark P (Some algs) s = (Returns d, s') /\
    (forall pre X post,
       algs = pre ++ X :: post -> ~ In X post ->
       exists d1 s1 k s2 g s3,
         run_comprehensive_benchmark P (Some pre) s = (Returns d1, s1) /\
         simulate_kem_exchange P X (announced X s1) = (Returns k, s2) /\
         simulate_digital_signature P X default_message s2
           = (Returns g, s3) /\
         Dict.get d X = Some [k; g]) /\
    (forall X,
       In X algs -> kem_rejects P X -> sig_rejects P X ->
       exists k g, Dict.get d X = Some [k; g] /\ Errored k /\ Errored g).
Proof.
  unfold run_comprehensive_benchmark, run_comprehensive_benchmark_with.
  set (bench := fun algorithm => benchmark_algorithm P algorithm "both").
  destruct (for_algorithms_total P bench algs Dict.empty s)
    as (d & s' & Hrun).
  exists d, s'. split; [exact Hrun |].
  assert (Hentry : forall pre X post,
            algs = pre ++ X :: post -> ~ In X post ->
            exists d1 s1 k s2 g s3,
              for_algorithms P bench pre Dict.empty s = (Returns d1, s1) /\
              simulate_kem_exchange P X (announced X s1) = (Returns k, s2) /\
              simulate_digital_signature P X default_message s2
                = (Returns g, s3) /\
              Dict.get d X = Some [k; g]).
  { intros pre X post -> Hnot.
    destruct (for_algorithms_total P bench pre Dict.empty s)
      as (d1 & s1 & Hpre).
    destruct (benchmark_algorithm_both P X (announced X s1))
      as (k & s2 & g & s3 & Hk & Hg & Hboth).
    exists d1, s1, k, s2, g, s3. repeat split; auto.
    rewrite (for_algorithms_last P bench pre X post _ _ _ _ _ _ _ _
               Hnot Hpre (benchmark_entry_returns P bench X d1 _ _ _ Hboth)
               Hrun).
    apply get_set_same. }
  split; [exact Hentry |].
  intros X Hin Hkem Hsig.
  destruct (last_occurrence X algs Hin) as (pre & post & Heq & Hnot).
  destruct (Hentry pre X post Heq Hnot)
    as (d1 & s1 & k & s2 & g & s3 & _ & Hk & Hg & Hget).
  exists k, g. split; [exact Hget |]. split.
  - eapply simulate_kem_exchange_rejected; eassumption.
  - eapply simulate_digital_signature_rejected; eassumption.
Qed.

Lemma mock_rejects_unknown (c : Mock.Config) :
  kem_rejects (Mock.env c) "Kyber-R2" /\ sig_rejects (Mock.env c) "Kyber-R2".
Proof. split; intros w; eexists; eexists; reflexivity. Qed.

(** A name the mock provider does not know, between two it does. *)
Lemma C7_failures_are_isolated_witness :
  exists d s',
    run_comprehensive_benchmark (Mock.env Mock.sound)
      (Some ["ML-KEM-512"; "Kyber-R2"; "ML-DSA-44"])
      (Mock.start Mock.sound 0) = (Returns d, s') /\
    exists k g, Dict.get d "Kyber-R2" = Some [k; g] /\ Errored k /\ Errored g.
Proof.
  destruct (C7_failures_are_isolated (Mock.env Mock.sound)
              ["ML-KEM-512"; "Kyber-R2"; "ML-DSA-44"]
              (Mock.start Mock.sound 0)) as (d & s' & Hrun & _ & Hrej).
  exists d, s'. split; [exact Hrun |].
  apply Hrej.
  - simpl. right. left. reflexivity.
  - apply (mock_rejects_unknown Mock.sound).
  - apply (mock_rejects_unknown Mock.sound).
Defined.

(** On the mock provider the names around the rejected one keep their
    successful results: the KEM name its exchange, the signature name its
    signature. *)
Example isolation_on_mock :
  let d := match fst (run_comprehensive_benchmark (Mock.env Mock.sound)
                        (Some ["ML-KEM-512"; "Kyber-R2"; "ML-DSA-44"])
                        (Mock.start Mock.sound 0)) with
           | Returns d => d
           | Raises _ => []
           end in
  Dict.keys d = ["ML-KEM-512"; "Kyber-R2"; "ML-DSA-44"] /\
  option_map (map success) (Dict.get d "ML-KEM-512") = Some [true; false] /\
  option_map (map success) (Dict.get d "Kyber-R2") = Some [false; false] /\
  option_map (map success) (Dict.get d "ML-DSA-44") = Some [false; true].
Proof. vm_compute. repeat split. Qed.

(** ** Order of the attempts (C8) *)

Section Schedule.

Variable P : Env.

Lemma for_algorithms_schedule algs : forall d (s : State P),
  for_algorithms P (fun alg => benchmark_algorithm P alg "both") algs d s
  = (entries <- spec_schedule P algs ;; ret (file_entries entries d)) s.
Proof.
  induction algs as [| alg rest IH]; intros d s.
  - reflexivity.
  - destruct (benchmark_algorithm_both P alg (announced alg s))
      as (k & s1 & g & s2 & Hk & Hg & Hboth).
    rewrite (for_algorithms_cons P _ _ _ _ _ _ _
               (benchmark_entry_returns P _ alg d _ _ _ Hboth)).
    rewrite IH. cbn [spec_schedule]. unfold bind, logger, ret. cbv beta.
    fold (announced alg s). rewrite Hk, Hg.
    destruct (spec_schedule P rest s2) as [[entries | e] s3]; reflexivity.
Qed.

(** The schedule never raises, and yields one entry per listed name, in the
    order of the list, each holding the KEM result and then the signature
    result. *)
Lemma spec_schedule_entries algs : forall s : State P,
  exists entries s',
    spec_schedule P algs s = (Returns entries, s') /\
    map fst entries = algs /\
    Forall (fun e => map operation (snd e)
                     = ["KEM Exchange"; "Digital Signature"]) entries.
Proof.
  induction algs as [| alg rest IH]; intros s.
  - exists [], s. repeat split. constructor.
  - destruct (simulate_kem_exchange_total P alg (announced alg s))
      as (k & s1 & Hk).
    destruct (simulate_digital_signature_total P alg default_message s1)
      as (g & s2 & Hg).
    destruct (IH s2) as (entries & s3 & Hrest & Hnames & Hops).
    exists ((alg, [k; g]) :: entries), s3.
    split; [| split].
    + cbn [spec_schedule]. unfold bind, logger, ret. cbv beta.
      fold (announced alg s). now rewrite Hk, Hg, Hrest.
    + simpl. now rewrite Hnames.
    + constructor; auto. simpl.
      destruct (simulate_kem_exchange_header P _ _ _ _ Hk) as [_ ->].
      destruct (simulate_digital_signature_header P _ _ _ _ _ Hg) as [_ ->].
      reflexivity.
Qed.

Lemma benchmark_algorithm_operations alg operation_type (s : State P) :
  exists rs s',
    benchmark_algorithm P alg operation_type s = (Returns rs, s') /\
    map operation rs = requested_operations operation_type.
Proof.
  rewrite benchmark_algorithm_attempts.
  unfold attempts, requested_operations, bind, ret.
  destruct (str_in operation_type ["both"; "kem"]);
    destruct (str_in operation_type ["both"; "sig"]).
  - destruct (simulate_kem_exchange_total P alg s) as (k & s1 & Hk).
    destruct (simulate_digital_signature_total P alg default_message s1)
      as (g & s2 & Hg).
    rewrite Hk, Hg. exists [k; g], s2. split; [reflexivity |]. simpl.
    destruct (simulate_kem_exchange_header P _ _ _ _ Hk) as [_ ->].
    destruct (simulate_digital_signature_header P _ _ _ _ _ Hg) as [_ ->].
    reflexivity.
  - destruct (simulate_kem_exchange_total P alg s) as (k & s1 & Hk).
    rewrite Hk. exists [k], s1. split; [reflexivity |]. simpl.
    destruct (simulate_kem_exchange_header P _ _ _ _ Hk) as [_ ->].
    reflexivity.
  - destruct (simulate_digital_signature_total P alg default_message s)
      as (g & s2 & Hg).
    rewrite Hg. exists [g], s2. split; [reflexivity |]. simpl.
    destruct (simulate_digital_signature_header P _ _ _ _ _ Hg) as [_ ->].
    reflexivity.
  - exists [], s. split; reflexivity.
Qed.

End Schedule.

(** C8: on every provider and from every state,
    [run_comprehensive_benchmark] makes the same calls, in the same order,
    with the same results and the same final state as the schedule of the
    specification.  That schedule yields one entry per listed name, in the
    order of the list, each made of one KEM result followed by one signature
    result; the report is those entries filed in that order.
    [benchmark_algorithm] with any [operation_type] runs the KEM exchange
    (if asked) and then the signature (if asked), each once, and never
    enters a handler, so nothing is tried a second time. *)
Theorem C8_attempts_in_order (P : Env) algs alg operation_type (s : State P) :
  (exists entries s',
     spec_schedule P algs s = (Returns entries, s') /\
     map fst entries = algs /\
     Forall (fun e => map operation (snd e)
                      = ["KEM Exchange"; "Digital Signature"]) entries /\
     run_comprehensive_benchmark P (Some algs) s
     = (Returns (file_entries entries Dict.empty), s')) /\
  run_comprehensive_benchmark P (Some algs) s
  = (entries <- spec_schedule P algs ;;
     ret (file_entries entries Dict.empty)) s /\
  benchmark_algorithm P alg operation_type s
  = attempts P alg operation_type s /\
  (exists rs s',
     benchmark_algorithm P alg operation_type s = (Returns rs, s') /\
     map operation rs = requested_operations operation_type).
Proof.
  assert (Hrun := for_algorithms_schedule P algs Dict.empty s).
  split; [| split; [exact Hrun | split]].
  - destruct (spec_schedule_entries P algs s)
      as (entries & s' & Hsched & Hnames & Hops).
    exists entries, s'. repeat split; auto.
    unfold run_comprehensive_benchmark, run_comprehensive_benchmark_with.
    rewrite Hrun. unfold bind, ret. now rewrite Hsched.
  - apply benchmark_algorithm_attempts.
  - apply benchmark_algorithm_operations.
Qed.

(** The calls of one run on the mock provider, as they cross the boundary:
    the whole KEM exchange of the first name, its signature attempt, then
    the same for the second name. *)
Example schedule_on_mock :
  trace (snd (run_comprehensive_benchmark (Mock.env Mock.sound)
                (Some ["ML-KEM-512"; "ML-DSA-44"]) (Mock.start Mock.sound 0)))
  = kem_trace "ML-KEM-512" Mock.public_key Mock.ciphertext
    ++ [EvTime; EvSigNew "ML-KEM-512"; EvTime]
    ++ [EvTime; EvKemNew "ML-DSA-44"; EvTime]
    ++ sig_trace "ML-DSA-44" default_message Mock.verification_key
         Mock.signature.
Proof. vm_compute. reflexivity. Qed.

(** ** The keys of the report (C9) *)

(** C9: whatever method the loop dispatches to, the report has the names of
    the list as its keys, in the order of their first occurrence (the list
    itself when no name repeats), every name is mapped to a list, and a
    name whose benchmarking raised, at its last occurrence, is mapped to the
    empty list.  Without an argument the keys are the six default names. *)
Theorem C9_report_keys (P : Env) bench algs (s : State P) :
  exists d s',
    run_comprehensive_benchmark_with P bench (Some algs) s = (Returns d, s') /\
    Dict.keys d = dedup algs /\
    (NoDup algs -> Dict.keys d = algs) /\
    (forall a, In a algs -> exists rs, Dict.get d a = Some rs) /\
    (forall pre X post d1 s1 e s2,
       algs = pre ++ X :: post -> ~ In X post ->
       run_comprehensive_benchmark_with P bench (Some pre) s
         = (Returns d1, s1) ->
       bench X (announced X s1) = (Raises e, s2) ->
       Dict.get d X = Some []) /\
    exists d0 s0,
      run_comprehensive_benchmark_with P bench None s = (Returns d0, s0) /\
      Dict.keys d0 = default_algorithms.
Proof.
  unfold run_comprehensive_benchmark_with.
  destruct (for_algorithms_total P bench algs Dict.empty s)
    as (d & s' & Hrun).
  exists d, s'. split; [exact Hrun |].
  assert (Hkeys : Dict.keys d = dedup algs).
  { rewrite (for_algorithms_keys P bench _ _ _ _ _ Hrun), fold_add_key.
    simpl. apply filter_all. reflexivity. }
  split; [exact Hkeys |].
  split; [intros Hnd; rewrite Hkeys; now apply dedup_NoDup |].
  split; [| split].
  - intros a Hin.
    destruct (last_occurrence a algs Hin) as (pre & post & Heq & Hnot).
    subst algs.
    destruct (for_algorithms_total P bench pre Dict.empty s)
      as (d1 & s1 & Hpre).
    destruct (benchmark_entry_total P bench a d1 s1) as (rs & s2 & Ha).
    exists rs.
    rewrite (for_algorithms_last P bench pre a post _ _ _ _ _ _ _ _
               Hnot Hpre Ha Hrun).
    apply get_set_same.
  - intros pre X post d1 s1 e s2 Heq Hnot Hpre HX. subst algs.
    rewrite (for_algorithms_last P bench pre X post _ _ _ _ _ _ _ _
               Hnot Hpre (benchmark_entry_raises P bench X d1 _ _ _ HX)
               Hrun).
    apply get_set_same.
  - destruct (for_algorithms_total P bench default_algorithms Dict.empty s)
      as (d0 & s0 & H0).
    exists d0, s0. split; [exact H0 |].
    rewrite (for_algorithms_keys P bench _ _ _ _ _ H0), fold_add_key.
    reflexivity.
Qed.

Lemma C9_report_keys_witness :
  exists d s',
    run_comprehensive_benchmark_with (Mock.env Mock.sound)
      (raising_bench (Mock.env Mock.sound) "ML-KEM-768")
      (Some ["ML-KEM-768"; "ML-DSA-44"]) (Mock.start Mock.sound 0)
      = (Returns d, s') /\
    Dict.keys d = ["ML-KEM-768"; "ML-DSA-44"] /\
    Dict.get d "ML-KEM-768" = Some [].
Proof.
  destruct (C9_report_keys (Mock.env Mock.sound)
              (raising_bench (Mock.env Mock.sound) "ML-KEM-768")
              ["ML-KEM-768"; "ML-DSA-44"] (Mock.start Mock.sound 0))
    as (d & s' & Hrun & _ & Hnd & _ & Hraise & _).
  exists d, s'. split; [exact Hrun |]. split.
  - apply Hnd. repeat constructor; simpl; intuition discriminate.
  - apply (Hraise [] "ML-KEM-768" ["ML-DSA-44"] Dict.empty
             (Mock.start Mock.sound 0)
             (mkException "RuntimeError" "provider unavailable")
             (announced "ML-KEM-768" (Mock.start Mock.sound 0))).
    + reflexivity.
    + simpl. intuition discriminate.
    + reflexivity.
    + reflexivity.
Defined.

(** ** Operation types outside the three known ones (C10) *)

(** C10: with an [operation_type] other than ["both"], ["kem"] and ["sig"],
    [benchmark_algorithm] returns the empty list and leaves the state as it
    was: no call crosses the boundary, nothing is logged. *)
Theorem C10_unknown_operation_type (P : Env) alg operation_type
    (s : State P) :
  operation_type <> "both" -> operation_type <> "kem" ->
  operation_type <> "sig" ->
  benchmark_algorithm P alg operation_type s = (Returns [], s).
Proof.
  intros Hb Hk Hs. unfold benchmark_algorithm. simpl.
  apply String.eqb_neq in Hb, Hk, Hs. rewrite Hb, Hk, Hs. reflexivity.
Qed.

Lemma C10_unknown_operation_type_witness :
  benchmark_algorithm (Mock.env Mock.sound) "ML-KEM-512" "signature"
    (Mock.start Mock.sound 0)
  = (Returns [], Mock.start Mock.sound 0).
Proof.
  apply (C10_unknown_operation_type (Mock.env Mock.sound) "ML-KEM-512"
           "signature" (Mock.start Mock.sound 0)); discriminate.
Defined.

(** * The reporter *)

Section ReporterFacts.

Variable P : Env.
Variable format_6f : Z -> string.

Lemma logs_nil (s : State P) : logs [] s = s.
Proof. destruct s. unfold logs. simpl. now rewrite app_nil_r. Qed.

Lemma logs_logs l1 l2 (s : State P) : logs l2 (logs l1 s) = logs (l1 ++ l2) s.
Proof. unfold logs. simpl. now rewrite map_app, app_assoc. Qed.

Lemma logger_run line (s : State P) :
  logger INFO line s = (Returns tt, logs [line] s).
Proof. reflexivity. Qed.

(** A key that is not in the dictionary is none of its keys. *)
Lemma get_None_keys {V : Type} (d : Dict.t V) k :
  Dict.get d k = None -> forall k' v, In (k', v) d -> k' <> k.
Proof.
  induction d as [| [k0 v0] d IH]; simpl; intros H k' v Hin; [contradiction |].
  destruct (String.eqb k k0) eqn:E; [discriminate |].
  destruct Hin as [Heq | Hin].
  - inversion Heq; subst. apply String.eqb_neq in E. congruence.
  - eapply IH; eassumption.
Qed.

(** Without an ["error"] key the inner test [key != "error"] lets every
    entry through. *)
Lemma for_details_run items : forall s : State P,
  (forall k v, In (k, v) items -> k <> "error") ->
  for_details P items s
  = (Returns tt,
     logs (map (fun kv =>
                  ("    " ++ title (replace_char "_" " " (fst kv)) ++ ": "
                     ++ str_of_value (snd kv))%string) items) s).
Proof.
  induction items as [| [key value] rest IH]; intros s Hne.
  - simpl. unfold ret. now rewrite logs_nil.
  - cbn [for_details]. unfold bind.
    assert (E : String.eqb key "error" = false).
    { apply String.eqb_neq. apply (Hne key value). now left. }
    rewrite E. cbn [negb]. rewrite logger_run.
    rewrite IH by (intros k v Hin; apply (Hne k v); now right).
    rewrite logs_logs. reflexivity.
Qed.

(** The lookup [result.details['error']] is only reached when the key is
    there, so [KeyError] is never raised. *)
Lemma report_result_run r (s : State P) :
  report_result P format_6f r s
  = (Returns tt, logs (result_lines format_6f r) s).
Proof.
  unfold report_result, result_lines, detail_lines, details_error, Dict.mem.
  rewrite (bind_returns P _ _ _ _ _ (logger_run _ _)).
  rewrite (bind_returns P _ _ _ _ _ (logger_run _ _)).
  rewrite (bind_returns P _ _ _ _ _ (logger_run _ _)).
  rewrite !logs_logs. cbn [app].
  destruct (Dict.get (details r) "error") as [v |] eqn:E.
  - rewrite andb_false_r.
    rewrite (bind_returns P _ _ _ _ _ (eq_refl : ret v _ = (Returns v, _))).
    rewrite logger_run, logs_logs. reflexivity.
  - cbn [negb]. rewrite andb_true_r.
    destruct (details r) as [| kv d] eqn:Ed.
    + reflexivity.
    + rewrite for_details_run, logs_logs; [reflexivity |].
      intros k v. now apply get_None_keys.
Qed.

Lemma for_results_run results : forall s : State P,
  for_results P format_6f results s
  = (Returns tt, logs (flat_map (result_lines format_6f) results) s).
Proof.
  induction results as [| r rest IH]; intros s.
  - simpl. unfold ret. now rewrite logs_nil.
  - cbn [for_results flat_map]. unfold bind.
    rewrite report_result_run, IH, logs_logs. reflexivity.
Qed.

Lemma report_entry_run algorithm results (s : State P) :
  report_entry P format_6f algorithm results s
  = (Returns tt, logs (entry_lines format_6f (algorithm, results)) s).
Proof.
  unfold report_entry, entry_lines. cbn [fst snd].
  destruct results as [| r rest]; [reflexivity |].
  unfold bind. rewrite logger_run, for_results_run, logs_logs. reflexivity.
Qed.

Lemma for_items_run items : forall s : State P,
  for_items P format_6f items s
  = (Returns tt, logs (flat_map (entry_lines format_6f) items) s).
Proof.
  induction items as [| [algorithm results] rest IH]; intros s.
  - simpl. unfold ret. now rewrite logs_nil.
  - cbn [for_items flat_map]. unfold bind.
    rewrite report_entry_run, IH, logs_logs. reflexivity.
Qed.

End ReporterFacts.

Lemma print_benchmark_summary_run (P : Env) format_6f
    (benchmark_results : Report) (s : State P) :
  print_benchmark_summary P format_6f benchmark_results s
  = (Returns tt, logs (summary_lines format_6f benchmark_results) s).
Proof.
  unfold print_benchmark_summary, summary_lines, summary_header.
  rewrite (bind_returns P _ _ _ _ _ (logger_run P _ _)).
  rewrite (bind_returns P _ _ _ _ _ (logger_run P _ _)).
  rewrite (bind_returns P _ _ _ _ _ (logger_run P _ _)).
  rewrite for_items_run, !logs_logs. reflexivity.
Qed.

(** X1: [print_benchmark_summary] is a read-only rendering.  On every
    report, whatever its entries hold, it returns without raising (the
    lookup of ["error"] never fails), makes no call to the provider or the
    clock, and only appends records at level INFO: the three header lines,
    then for every entry, in the order of the report, either the one line
    saying that no results are available or the algorithm's heading and the
    lines of each of its results.  A result with an ["error"] entry gets
    the error line alone below its three common lines; any other result
    gets one line for every entry of its details. *)
Theorem X1_summary_is_a_read_only_rendering (P : Env) format_6f
    (benchmark_results : Report) (s : State P) :
  exists s',
    print_benchmark_summary P format_6f benchmark_results s
      = (Returns tt, s') /\
    world s' = world s /\ trace s' = trace s /\
    logged s'
    = logged s ++ map (pair INFO) (summary_lines format_6f benchmark_results).
Proof.
  eexists. split; [apply print_benchmark_summary_run |].
  repeat split.
Qed.

(** X2: summaries compose.  Printing a report made of two parts logs the
    header, the lines of the first part, then the lines of the second; the
    lines of an entry do not depend on the entries around it. *)
Theorem X2_summary_of_a_concatenation (P : Env) format_6f (d1 d2 : Report)
    (s : State P) :
  print_benchmark_summary P format_6f (d1 ++ d2) s
  = (Returns tt,
     logs (flat_map (entry_lines format_6f) d2)
       (snd (print_benchmark_summary P format_6f d1 s))).
Proof.
  rewrite !print_benchmark_summary_run. cbn [snd].
  rewrite logs_logs. unfold summary_lines.
  now rewrite flat_map_app, app_assoc.
Qed.

(** The labels made from the keys the runners use. *)
Lemma runner_labels :
  title (replace_char "_" " " "public_key_size") = "Public Key Size" /\
  title (replace_char "_" " " "ciphertext_size") = "Ciphertext Size" /\
  title (replace_char "_" " " "shared_secret_size") = "Shared Secret Size" /\
  title (replace_char "_" " " "secrets_match") = "Secrets Match" /\
  title (replace_char "_" " " "signature_size") = "Signature Size" /\
  title (replace_char "_" " " "message_size") = "Message Size" /\
  title (replace_char "_" " " "verification_success")
  = "Verification Success".
Proof. repeat split; vm_compute; reflexivity. Qed.

Ltac show_details Hd :=
  unfold detail_lines; rewrite Hd;
  cbn [Dict.get String.eqb Ascii.eqb Bool.eqb map fst snd];
  destruct runner_labels as (L1 & L2 & L3 & L4 & L5 & L6 & L7);
  rewrite ?L1, ?L2, ?L3, ?L4, ?L5, ?L6, ?L7;
  cbn [str_of_value String.append];
  match goal with |- context [success ?r] => destruct (success r) end;
  reflexivity.

Lemma detail_lines_kem r (pk ct ss : bytes) :
  details r = [("public_key_size", VInt (len pk));
               ("ciphertext_size", VInt (len ct));
               ("shared_secret_size", VInt (len ss));
               ("secrets_match", VBool (success r))] ->
  detail_lines r
  = [("    Public Key Size: " ++ str_of_int (len pk))%string;
     ("    Ciphertext Size: " ++ str_of_int (len ct))%string;
     ("    Shared Secret Size: " ++ str_of_int (len ss))%string;
     ("    Secrets Match: " ++ (if success r then "True" else "False"))%string].
Proof. intros Hd. show_details Hd. Qed.

Lemma detail_lines_sig r (pk sg msg : bytes) :
  details r = [("public_key_size", VInt (len pk));
               ("signature_size", VInt (len sg));
               ("message_size", VInt (len msg));
               ("verification_success", VBool (success r))] ->
  detail_lines r
  = [("    Public Key Size: " ++ str_of_int (len pk))%string;
     ("    Signature Size: " ++ str_of_int (len sg))%string;
     ("    Message Size: " ++ str_of_int (len msg))%string;
     ("    Verification Success: "
        ++ (if success r then "True" else "False"))%string].
Proof. intros Hd. show_details Hd. Qed.

(** X3: what the summary says about a result of either runner, on every
    provider.  Below the three common lines (operation and status, time,
    key size) it shows either the three sizes and the flag, under the
    labels made from the keys ("Public Key Size", "Ciphertext Size", ...),
    or, for a result that captured an exception, the line with the
    exception's text and nothing else; such a result is shown as failed
    with a key size of 0. *)
Theorem X3_summary_of_a_runner_result (P : Env) format_6f alg message
    (s0 s1 s : State P) r :
  simulate_kem_exchange P alg s0 = (Returns r, s1) \/
  simulate_digital_signature P alg message s0 = (Returns r, s1) ->
  exists tail,
    report_result P format_6f r s
    = (Returns tt,
       logs ([("  " ++ operation r ++ ": "
                 ++ (if success r then "✓ SUCCESS" else "✗ FAILED"))%string;
              ("    Execution Time: " ++ format_6f (execution_time r)
                 ++ " seconds")%string;
              ("    Key Size: " ++ str_of_int (key_size r)
                 ++ " bytes")%string] ++ tail) s) /\
    ((exists pk ct ss : bytes,
        key_size r = len pk /\
        tail = [("    Public Key Size: " ++ str_of_int (len pk))%string;
                ("    Ciphertext Size: " ++ str_of_int (len ct))%string;
                ("    Shared Secret Size: " ++ str_of_int (len ss))%string;
                ("    Secrets Match: "
                   ++ (if success r then "True" else "False"))%string]) \/
     (exists pk sg msg : bytes,
        key_size r = len pk /\
        tail = [("    Public Key Size: " ++ str_of_int (len pk))%string;
                ("    Signature Size: " ++ str_of_int (len sg))%string;
                ("    Message Size: " ++ str_of_int (len msg))%string;
                ("    Verification Success: "
                   ++ (if success r then "True" else "False"))%string]) \/
     (exists e,
        success r = false /\ key_size r = 0 /\
        tail = [("    Error: " ++ exc_str e)%string])).
Proof.
  intros H. exists (detail_lines r).
  split; [apply report_result_run |].
  assert (Hshape : Measured r \/ Errored r).
  { destruct H as [H | H].
    - eapply simulate_kem_exchange_shape; eassumption.
    - eapply simulate_digital_signature_shape; eassumption. }
  destruct Hshape as [Hm | He].
  - destruct Hm as [pk ct ss Hk Hd | pk sg msg Hk Hd].
    + left. exists pk, ct, ss. split; [exact Hk |].
      now apply detail_lines_kem.
    + right. left. exists pk, sg, msg. split; [exact Hk |].
      now apply detail_lines_sig.
  - right. right. destruct He as (Hs & Hk & e & Hd). exists e.
    split; [exact Hs |]. split; [exact Hk |].
    unfold detail_lines. now rewrite Hd.
Qed.

Lemma X3_summary_of_a_runner_result_witness :
  exists tail,
    report_result (Mock.env mismatching) str_of_int mismatch_result
      (Mock.start mismatching 9)
    = (Returns tt,
       logs ([("  " ++ operation mismatch_result ++ ": "
                 ++ (if success mismatch_result
                     then "✓ SUCCESS" else "✗ FAILED"))%string;
              ("    Execution Time: "
                 ++ str_of_int (execution_time mismatch_result)
                 ++ " seconds")%string;
              ("    Key Size: " ++ str_of_int (key_size mismatch_result)
                 ++ " bytes")%string] ++ tail)
         (Mock.start mismatching 9)) /\
    ((exists pk ct ss : bytes,
        key_size mismatch_result = len pk /\
        tail = [("    Public Key Size: " ++ str_of_int (len pk))%string;
                ("    Ciphertext Size: " ++ str_of_int (len ct))%string;
                ("    Shared Secret Size: " ++ str_of_int (len ss))%string;
                ("    Secrets Match: "
                   ++ (if success mismatch_result
                       then "True" else "False"))%string]) \/
     (exists pk sg msg : bytes,
        key_size mismatch_result = len pk /\
        tail = [("    Public Key Size: " ++ str_of_int (len pk))%string;
                ("    Signature Size: " ++ str_of_int (len sg))%string;
                ("    Message Size: " ++ str_of_int (len msg))%string;
                ("    Verification Success: "
                   ++ (if success mismatch_result
                       then "True" else "False"))%string]) \/
     (exists e,
        success mismatch_result = false /\ key_size mismatch_result = 0 /\
        tail = [("    Error: " ++ exc_str e)%string])).
Proof.
  apply (X3_summary_of_a_runner_result (Mock.env mismatching) str_of_int
           "ML-KEM-512" [] (Mock.start mismatching 0)
           (snd (simulate_kem_exchange (Mock.env mismatching) "ML-KEM-512"
                   (Mock.start mismatching 0)))
           (Mock.start mismatching 9) mismatch_result).
  left. vm_compute. reflexivity.
Defined.

(** ** Printing what a benchmark returned *)

Lemma set_Forall_values {V : Type} (R : V -> Prop) (d : Dict.t V) k v :
  Forall (fun e => R (snd e)) d -> R v ->
  Forall (fun e => R (snd e)) (Dict.set d k v).
Proof.
  intros Hd Hv. induction d as [| [k' v'] d IH]; simpl.
  - now constructor.
  - inversion Hd; subst. destruct (String.eqb k k'); constructor; auto.
Qed.

Lemma for_algorithms_two_results (P : Env) algs : forall d (s s' : State P) d',
  for_algorithms P (fun alg => benchmark_algorithm P alg "both") algs d s
    = (Returns d', s') ->
  Forall (fun e => two_results (snd e)) d ->
  Forall (fun e => two_results (snd e)) d'.
Proof.
  induction algs as [| alg rest IH]; intros d s s' d' H Hd.
  - inversion H; subst. exact Hd.
  - destruct (benchmark_algorithm_both P alg (announced alg s))
      as (k & s1 & g & s2 & Hk & Hg & Hboth).
    rewrite (for_algorithms_cons P _ _ _ _ _ _ _
               (benchmark_entry_returns P _ alg d _ _ _ Hboth)) in H.
    apply (IH _ _ _ _ H). apply set_Forall_values; [exact Hd |].
    exists k, g. split; [reflexivity |]. split.
    + apply (simulate_kem_exchange_header P _ _ _ _ Hk).
    + apply (simulate_digital_signature_header P _ _ _ _ _ Hg).
Qed.

Lemma entry_lines_two_results format_6f (d : Report) :
  Forall (fun e => two_results (snd e)) d ->
  flat_map (entry_lines format_6f) d
  = flat_map (fun e => (nl ++ fst e ++ ":")%string
                       :: flat_map (result_lines format_6f) (snd e)) d.
Proof.
  induction 1 as [| [alg rs] d (k & g & Hrs & _) _ IH]; [reflexivity |].
  cbn [flat_map]. rewrite IH. unfold entry_lines. cbn [fst snd] in *.
  now rewrite Hrs.
Qed.

(** X4: printing what [run_comprehensive_benchmark] returned, as [main]
    does.  Every entry of the report holds exactly two results, the KEM
    one and the signature one, so the summary never says that no results
    are available: after the header it shows, for every algorithm in the
    order of the report, its heading and the lines of its two results.
    This holds with a list of names and with none (the default six). *)
Theorem X4_summary_of_a_benchmark (P : Env) format_6f algorithms
    (s s1 : State P) d :
  run_comprehensive_benchmark P algorithms s = (Returns d, s1) ->
  Forall (fun e => two_results (snd e)) d /\
  print_benchmark_summary P format_6f d s1
  = (Returns tt,
     logs (summary_header
             ++ flat_map (fun e => (nl ++ fst e ++ ":")%string
                                   :: flat_map (result_lines format_6f)
                                        (snd e)) d) s1).
Proof.
  intros Hrun.
  assert (Hd : Forall (fun e => two_results (snd e)) d).
  { unfold run_comprehensive_benchmark, run_comprehensive_benchmark_with
      in Hrun.
    apply (for_algorithms_two_results P _ _ _ _ _ Hrun). constructor. }
  split; [exact Hd |].
  rewrite print_benchmark_summary_run. unfold summary_lines.
  now rewrite (entry_lines_two_results format_6f d Hd).
Qed.

Lemma X4_summary_of_a_benchmark_witness :
  let run := run_comprehensive_benchmark (Mock.env Mock.sound)
               (Some ["ML-KEM-512"; "Kyber-R2"]) (Mock.start Mock.sound 0) in
  exists d,
    fst run = Returns d /\
    Forall (fun e => two_results (snd e)) d /\
    print_benchmark_summary (Mock.env Mock.sound) str_of_int d (snd run)
    = (Returns tt,
       logs (summary_header
               ++ flat_map (fun e => (nl ++ fst e ++ ":")%string
                                     :: flat_map (result_lines str_of_int)
                                          (snd e)) d) (snd run)).
Proof.
  intros run. eexists. split; [vm_compute; reflexivity |].
  apply (X4_summary_of_a_benchmark (Mock.env Mock.sound) str_of_int
           (Some ["ML-KEM-512"; "Kyber-R2"]) (Mock.start Mock.sound 0)
           (snd run)).
  vm_compute. reflexivity.
Defined.

(** * The examples *)

Section StdoutFacts.

Variable P : Env.

Lemma prints_nil (s : State (with_stdout P)) : prints [] s = s.
Proof.
  destruct s as [[w out] tr lg]. unfold prints. simpl. now rewrite app_nil_r.
Qed.

Lemma prints_prints l1 l2 (s : State (with_stdout P)) :
  prints l2 (prints l1 s) = prints (l1 ++ l2) s.
Proof. unfold prints. simpl. now rewrite app_assoc. Qed.

Lemma print_run line (s : State (with_stdout P)) :
  print line s = (Returns tt, prints [line] s).
Proof. reflexivity. Qed.

Lemma only_prints_ret {A : Type} (a : A) : only_prints P (ret a).
Proof.
  intros s r s' H. inversion H; subst. split; auto.
  exists []. now rewrite app_nil_r.
Qed.

Lemma only_prints_print line : only_prints P (print line).
Proof.
  intros s r s' H. inversion H; subst. split; auto. now exists [line].
Qed.

Lemma only_prints_call {A : Type} ev (f : World P -> Outcome A * World P) :
  only_prints P (call (P := with_stdout P) ev (below f)).
Proof.
  intros s r s' H. unfold call, below in H.
  destruct (f (fst (world s))) as [r0 w']. inversion H; subst.
  split; auto. exists []. unfold stdout. simpl. now rewrite app_nil_r.
Qed.

Lemma only_prints_step {A : Type} (s1 s2 s3 : State (with_stdout P)) :
  (logged s2 = logged s1 /\ exists l, stdout s2 = stdout s1 ++ l) ->
  (logged s3 = logged s2 /\ exists l, stdout s3 = stdout s2 ++ l) ->
  logged s3 = logged s1 /\ exists l, stdout s3 = stdout s1 ++ l.
Proof.
  intros (H1 & l1 & E1) (H2 & l2 & E2). split; [congruence |].
  exists (l1 ++ l2). now rewrite E2, E1, app_assoc.
Qed.

Lemma only_prints_bind {A B : Type} (m : M (with_stdout P) A)
    (k : A -> M (with_stdout P) B) :
  only_prints P m -> (forall a, only_prints P (k a)) ->
  only_prints P (bind m k).
Proof.
  unfold only_prints. intros Hm Hk s r s' H. unfold bind in H.
  destruct (m s) as [[a | e] s1] eqn:E.
  - apply (only_prints_step (A := A) s s1 s'); eauto.
  - inversion H; subst. eauto.
Qed.

Lemma only_prints_try {A : Type} (m : M (with_stdout P) A) h :
  only_prints P m -> (forall e, only_prints P (h e)) ->
  only_prints P (try_except m h).
Proof.
  unfold only_prints. intros Hm Hh s r s' H. unfold try_except in H.
  destruct (m s) as [[a | e] s1] eqn:E.
  - inversion H; subst. eauto.
  - apply (only_prints_step (A := A) s s1 s'); eauto.
Qed.

Lemma only_prints_with {H A : Type} (ctor : M (with_stdout P) H) exit
    (body : H -> M (with_stdout P) A) :
  only_prints P ctor -> (forall x, only_prints P (exit x)) ->
  (forall x, only_prints P (body x)) -> only_prints P (with_ ctor exit body).
Proof.
  unfold only_prints. intros Hc He Hb s r s' Hrun. unfold with_ in Hrun.
  destruct (ctor s) as [[x | e] s1] eqn:E1.
  - destruct (body x s1) as [r2 s2] eqn:E2.
    destruct (exit x s2) as [[u | e'] s3] eqn:E3; inversion Hrun; subst.
    + apply (only_prints_step (A := A) s s2 s'); eauto.
      apply (only_prints_step (A := A) s s1 s2); eauto.
    + apply (only_prints_step (A := A) s s2 s'); eauto.
      apply (only_prints_step (A := A) s s1 s2); eauto.
  - inversion Hrun; subst. eauto.
Qed.

(** A handler that cannot raise makes the whole [try] return. *)
Lemma try_except_total {A : Type} (m : M (with_stdout P) A) h :
  (forall e s, exists a s', h e s = (Returns a, s')) ->
  forall s, exists a s', try_except m h s = (Returns a, s').
Proof.
  intros Hh s. unfold try_except.
  destruct (m s) as [[a | e] s1]; eauto.
Qed.

End StdoutFacts.

Lemma only_prints_time (P : Env) : only_prints P (time (with_stdout P)).
Proof.
  intros s r s' H. unfold time, call in H. cbn in H. unfold below in H.
  destruct (time_time P (fst (world s))) as [t w']. inversion H; subst.
  split; auto. exists []. unfold stdout. simpl. now rewrite app_nil_r.
Qed.

(** Walks through a function of the examples, one construct at a time. *)
Ltac only_prints_walk :=
  unfold KeyEncapsulation, KeyEncapsulation_exit, generate_keypair,
    encap_secret, decap_secret, Signature, Signature_exit, sig_keypair,
    sign, verify;
  repeat match goal with
    | |- forall _, _ => intro
    | |- only_prints _ (let _ := _ in _) => cbv zeta
    | |- only_prints _ (print _) => apply only_prints_print
    | |- only_prints _ (ret _) => apply only_prints_ret
    | |- only_prints _ (time _) => apply only_prints_time
    | |- only_prints _ (call _ _) => apply only_prints_call
    | |- only_prints _ (with_ _ _ _) => apply only_prints_with
    | |- only_prints _ (try_except _ _) => apply only_prints_try
    | |- only_prints _ (bind _ _) => apply only_prints_bind
    | |- only_prints _ (match ?x with _ => _ end) => destruct x
    end.

Lemma simple_kem_example_only_prints (P : Env) :
  only_prints P (simple_kem_example P).
Proof. unfold simple_kem_example. only_prints_walk. Qed.

Lemma simple_signature_example_only_prints (P : Env) :
  only_prints P (simple_signature_example P).
Proof. unfold simple_signature_example. only_prints_walk. Qed.

Lemma benchmark_one_only_prints (P : Env) format_4f alg :
  only_prints P (benchmark_one P format_4f alg).
Proof. unfold benchmark_one. only_prints_walk. Qed.

(** ** [simple_kem_example] *)

(** X5: [simple_kem_example] never raises, on any provider: whatever goes
    wrong inside is caught and printed.  It prints its banner first, only
    ever adds lines to the output, and hands nothing to the logger. *)
Theorem X5_simple_kem_example_never_raises (P : Env)
    (s : State (with_stdout P)) :
  exists s' lines,
    simple_kem_example P s = (Returns tt, s') /\
    stdout s' = stdout s ++ "=== Simple KEM Example ===" :: lines /\
    logged s' = logged s.
Proof.
  unfold simple_kem_example.
  rewrite (bind_returns _ _ _ _ _ _ (print_run P _ s)). cbv zeta.
  match goal with
  | |- context [try_except ?m ?h (prints ?l s)] =>
      destruct (try_except_total P m h
                  (fun e s0 => ex_intro _ tt (ex_intro _ _ (print_run P _ s0)))
                  (prints l s)) as ([] & s' & Hrun);
      assert (Hop : only_prints P (try_except m h))
        by (apply only_prints_try; only_prints_walk)
  end.
  destruct (Hop _ _ _ Hrun) as (Hlog & lines & Hout).
  exists s', lines. split; [exact Hrun |]. split; [| exact Hlog].
  rewrite Hout. unfold stdout, prints. simpl. now rewrite <- app_assoc.
Qed.

(** Runs a function of the examples along given answers of the provider. *)
Ltac run_example :=
  unfold KeyEncapsulation, KeyEncapsulation_exit, generate_keypair,
    encap_secret, decap_secret, Signature, Signature_exit, sig_keypair,
    sign, verify, time, try_except, with_, bind, ret, call, print;
  repeat (cbn -[str_of_int hex String.append len bytes_eqb firstn
                list_byte_of_string string_of_list_byte Z.sub];
          unfold below;
          cbn -[str_of_int hex String.append len bytes_eqb firstn
                list_byte_of_string string_of_list_byte Z.sub];
          match goal with
          | H : _ = (_, _) |- _ => rewrite H
          end).

(** X6: when no provider call raises, [simple_kem_example] makes the calls of
    the exchange in order (two sessions, the client's key pair, the server's
    encapsulation against it, the client's decapsulation, the two sessions
    left) and prints the banner, the algorithm, the three steps with the
    sizes of the public key, the ciphertext and the shared secret, and then
    the success line with the first 16 bytes of the secret in hexadecimal
    if the two secrets are equal, the failure line if they differ. *)
Theorem X6_simple_kem_example_on_answers (P : Env) w out tr lg
    pk ct secret_server secret_client w' :
  kem_session_answers P "ML-KEM-512" w pk ct secret_server secret_client w' ->
  simple_kem_example P (@mkState (with_stdout P) (w, out) tr lg)
  = (Returns tt,
     @mkState (with_stdout P)
       (w',
        out ++
        ["=== Simple KEM Example ===";
         "Using algorithm: ML-KEM-512";
         "1. Client generating keypair...";
         ("   Public key size: " ++ str_of_int (len pk) ++ " bytes")%string;
         "2. Server encapsulating secret...";
         ("   Ciphertext size: " ++ str_of_int (len ct) ++ " bytes")%string;
         ("   Shared secret size: " ++ str_of_int (len secret_server)
            ++ " bytes")%string;
         "3. Client decapsulating secret..."] ++
        (if bytes_eqb secret_client secret_server
         then ["✓ SUCCESS: Shared secrets match!";
               ("   Secret: " ++ hex (firstn 16 secret_client)
                  ++ "...")%string]
         else ["✗ FAILED: Shared secrets don't match!"]))
       (tr ++ [EvKemNew "ML-KEM-512"; EvKemNew "ML-KEM-512"; EvKemKeypair;
               EvKemEncap pk; EvKemDecap ct; EvKemExit; EvKemExit])
       lg).
Proof.
  intros (client & w1 & server & w2 & w3 & w4 & w5 & w6 &
          H1 & H2 & H3 & H4 & H5 & H6 & H7).
  unfold simple_kem_example. run_example.
  destruct (bytes_eqb secret_client secret_server); run_example;
    repeat rewrite <- app_assoc; reflexivity.
Qed.

Lemma mock_kem_session_answers :
  kem_session_answers (Mock.env Mock.sound) "ML-KEM-512" 0
    Mock.public_key Mock.ciphertext Mock.secret Mock.secret 7.
Proof.
  unfold kem_session_answers. cbn.
  exists "ML-KEM-512", 1, "ML-KEM-512", 2, 3, 4, 5, 6. repeat split.
Qed.

Lemma X6_simple_kem_example_on_answers_witness :
  simple_kem_example (Mock.env Mock.sound)
    (@mkState (with_stdout (Mock.env Mock.sound)) (0, []) [] [])
  = (Returns tt,
     @mkState (with_stdout (Mock.env Mock.sound))
       (7,
        [] ++
        ["=== Simple KEM Example ===";
         "Using algorithm: ML-KEM-512";
         "1. Client generating keypair...";
         ("   Public key size: " ++ str_of_int (len Mock.public_key)
            ++ " bytes")%string;
         "2. Server encapsulating secret...";
         ("   Ciphertext size: " ++ str_of_int (len Mock.ciphertext)
            ++ " bytes")%string;
         ("   Shared secret size: " ++ str_of_int (len Mock.secret)
            ++ " bytes")%string;
         "3. Client decapsulating secret..."] ++
        (if bytes_eqb Mock.secret Mock.secret
         then ["✓ SUCCESS: Shared secrets match!";
               ("   Secret: " ++ hex (firstn 16 Mock.secret)
                  ++ "...")%string]
         else ["✗ FAILED: Shared secrets don't match!"]))
       ([] ++ [EvKemNew "ML-KEM-512"; EvKemNew "ML-KEM-512"; EvKemKeypair;
               EvKemEncap Mock.public_key; EvKemDecap Mock.ciphertext;
               EvKemExit; EvKemExit])
       []).
Proof.
  exact (X6_simple_kem_example_on_answers (Mock.env Mock.sound) 0 [] [] []
           _ _ _ _ 7 mock_kem_session_answers).
Defined.

(** What the witness prints, line by line. *)
Example simple_kem_example_on_mock :
  stdout (snd (simple_kem_example (Mock.env Mock.sound)
                 (@mkState (with_stdout (Mock.env Mock.sound)) (0, []) [] [])))
  = ["=== Simple KEM Example ===";
     "Using algorithm: ML-KEM-512";
     "1. Client generating keypair...";
     "   Public key size: 800 bytes";
     "2. Server encapsulating secret...";
     "   Ciphertext size: 768 bytes";
     "   Shared secret size: 32 bytes";
     "3. Client decapsulating secret...";
     "✓ SUCCESS: Shared secrets match!";
     "   Secret: 03030303030303030303030303030303..."].
Proof. vm_compute. reflexivity. Qed.

(** X7: when the provider refuses to open the first session,
    [simple_kem_example] prints its banner and the error, makes no other
    call, and returns. *)
Theorem X7_simple_kem_example_rejected (P : Env) w out tr lg e w' :
  oqs_KeyEncapsulation P "ML-KEM-512" w = (Raises e, w') ->
  simple_kem_example P (@mkState (with_stdout P) (w, out) tr lg)
  = (Returns tt,
     @mkState (with_stdout P)
       (w', out ++ ["=== Simple KEM Example ===";
                    ("Error: " ++ exc_str e)%string])
       (tr ++ [EvKemNew "ML-KEM-512"]) lg).
Proof.
  intros H. unfold simple_kem_example. run_example.
  cbn [world trace logged fst snd]. repeat rewrite <- app_assoc. reflexivity.
Qed.

Lemma X7_simple_kem_example_rejected_witness :
  simple_kem_example no_kem (@mkState (with_stdout no_kem) (0, []) [] [])
  = (Returns tt,
     @mkState (with_stdout no_kem)
       (0, [] ++ ["=== Simple KEM Example ===";
                  ("Error: " ++ exc_str (Mock.not_supported "ML-KEM-512"))
                    %string])
       ([] ++ [EvKemNew "ML-KEM-512"]) []).
Proof.
  apply (X7_simple_kem_example_rejected no_kem 0 [] [] []
           (Mock.not_supported "ML-KEM-512") 0).
  reflexivity.
Defined.

(** ** [simple_signature_example] *)

(** X8: when no provider call raises, [simple_signature_example] signs the
    message "Hello, Quantum World!" with the signer's session and has the
    verifier's session check that signature against the message and the
    signer's public key; it prints the banner, the algorithm, the message,
    the three steps with the sizes of the public key and the signature,
    and the success line exactly when the verifier answered true. *)
Theorem X8_simple_signature_example_on_answers (P : Env) w out tr lg
    pk sg is_valid w' :
  sig_session_answers P "ML-DSA-44" default_message w pk sg is_valid w' ->
  simple_signature_example P (@mkState (with_stdout P) (w, out) tr lg)
  = (Returns tt,
     @mkState (with_stdout P)
       (w',
        out ++
        [(nl ++ "=== Simple Signature Example ===")%string;
         "Using algorithm: ML-DSA-44";
         "Message: Hello, Quantum World!";
         "1. Generating keypair...";
         ("   Public key size: " ++ str_of_int (len pk) ++ " bytes")%string;
         "2. Signing message...";
         ("   Signature size: " ++ str_of_int (len sg) ++ " bytes")%string;
         "3. Verifying signature...";
         if is_valid then "✓ SUCCESS: Signature is valid!"
         else "✗ FAILED: Signature verification failed!"])
       (tr ++ [EvSigNew "ML-DSA-44"; EvSigNew "ML-DSA-44"; EvSigKeypair;
               EvSigSign default_message;
               EvSigVerify default_message sg pk; EvSigExit; EvSigExit])
       lg).
Proof.
  intros (signer & w1 & verifier & w2 & w3 & w4 & w5 & w6 &
          H1 & H2 & H3 & H4 & H5 & H6 & H7).
  unfold default_message in *.
  unfold simple_signature_example. run_example.
  destruct is_valid; run_example;
    repeat rewrite <- app_assoc; reflexivity.
Qed.

Lemma mock_sig_session_answers :
  sig_session_answers (Mock.env Mock.sound) "ML-DSA-44" default_message 0
    Mock.verification_key Mock.signature true 7.
Proof.
  unfold sig_session_answers. cbn.
  exists "ML-DSA-44", 1, "ML-DSA-44", 2, 3, 4, 5, 6. repeat split.
Qed.

Lemma X8_simple_signature_example_on_answers_witness :
  simple_signature_example (Mock.env Mock.sound)
    (@mkState (with_stdout (Mock.env Mock.sound)) (0, []) [] [])
  = (Returns tt,
     @mkState (with_stdout (Mock.env Mock.sound))
       (7,
        [] ++
        [(nl ++ "=== Simple Signature Example ===")%string;
         "Using algorithm: ML-DSA-44";
         "Message: Hello, Quantum World!";
         "1. Generating keypair...";
         ("   Public key size: " ++ str_of_int (len Mock.verification_key)
            ++ " bytes")%string;
         "2. Signing message...";
         ("   Signature size: " ++ str_of_int (len Mock.signature)
            ++ " bytes")%string;
         "3. Verifying signature...";
         if true then "✓ SUCCESS: Signature is valid!"
         else "✗ FAILED: Signature verification failed!"])
       ([] ++ [EvSigNew "ML-DSA-44"; EvSigNew "ML-DSA-44"; EvSigKeypair;
               EvSigSign default_message;
               EvSigVerify default_message Mock.signature
                 Mock.verification_key;
               EvSigExit; EvSigExit])
       []).
Proof.
  exact (X8_simple_signature_example_on_answers (Mock.env Mock.sound)
           0 [] [] [] _ _ true 7 mock_sig_session_answers).
Defined.

(** ** [benchmark_algorithms] *)

(** Follows a function of the examples through every outcome of every
    call. *)
Ltac split_outcomes :=
  repeat (cbn -[str_of_int hex String.append len bytes_eqb firstn Z.sub];
          unfold below;
          cbn -[str_of_int hex String.append len bytes_eqb firstn Z.sub];
          match goal with
          | |- context [bytes_eqb ?a ?b] => destruct (bytes_eqb a b)
          | |- context [match ?c with _ => _ end] =>
              lazymatch c with
              | context [match _ with _ => _ end] => fail
              | _ => destruct c
              end
          end).

Lemma benchmark_one_reports (P : Env) format_4f alg
    (s : State (with_stdout P)) :
  exists s' lines calls,
    benchmark_one P format_4f alg s = (Returns tt, s') /\
    stdout s' = stdout s ++ lines /\ reported alg lines /\
    trace s' = trace s ++ EvTime :: EvKemNew alg :: calls /\
    logged s' = logged s.
Proof.
  destruct s as [[w out] tr lg].
  unfold benchmark_one, reported, stdout.
  unfold KeyEncapsulation, KeyEncapsulation_exit, generate_keypair,
    encap_secret, decap_secret, time, try_except, with_, bind, ret, call,
    print.
  split_outcomes.
  all: eexists; eexists; eexists; split; [reflexivity |].
  all: cbn [world trace logged fst snd]; repeat rewrite <- app_assoc.
  all: split; [reflexivity |].
  all: split; [| split; reflexivity].
  all: split; [discriminate |].
  all: split; [simpl; lia |].
  all: repeat constructor; eexists; reflexivity.
Qed.

(** X9: [benchmark_algorithms] tries all three algorithms whatever happens
    to each.  On every provider it returns without raising, and after its
    banner it has printed, for ML-KEM-512, ML-KEM-768 and ML-KEM-1024 in
    that order, one line starting with the name (two when leaving a session
    raised after the outcome was printed); for each name the clock was read
    and the provider asked for a session, also when an earlier name
    failed. *)
Theorem X9_benchmark_algorithms_reports_each (P : Env) format_4f
    (s : State (with_stdout P)) :
  exists s' b1 b2 b3 c1 c2 c3,
    benchmark_algorithms P format_4f s = (Returns tt, s') /\
    stdout s'
    = stdout s ++ [(nl ++ "=== Algorithm Benchmark ===")%string]
        ++ b1 ++ b2 ++ b3 /\
    reported "ML-KEM-512" b1 /\ reported "ML-KEM-768" b2 /\
    reported "ML-KEM-1024" b3 /\
    trace s'
    = trace s ++ (EvTime :: EvKemNew "ML-KEM-512" :: c1)
        ++ (EvTime :: EvKemNew "ML-KEM-768" :: c2)
        ++ (EvTime :: EvKemNew "ML-KEM-1024" :: c3) /\
    logged s' = logged s.
Proof.
  unfold benchmark_algorithms.
  rewrite (bind_returns _ _ _ _ _ _ (print_run P _ s)). cbv zeta.
  cbn [for_kem_algorithms].
  destruct (benchmark_one_reports P format_4f "ML-KEM-512"
              (prints [(nl ++ "=== Algorithm Benchmark ===")%string] s))
    as (s1 & b1 & c1 & H1 & O1 & R1 & T1 & L1).
  rewrite (bind_returns _ _ _ _ _ _ H1).
  destruct (benchmark_one_reports P format_4f "ML-KEM-768" s1)
    as (s2 & b2 & c2 & H2 & O2 & R2 & T2 & L2).
  rewrite (bind_returns _ _ _ _ _ _ H2).
  destruct (benchmark_one_reports P format_4f "ML-KEM-1024" s2)
    as (s3 & b3 & c3 & H3 & O3 & R3 & T3 & L3).
  rewrite (bind_returns _ _ _ _ _ _ H3).
  exists s3, b1, b2, b3, c1, c2, c3.
  split; [reflexivity |].
  split; [| split; [exact R1 | split; [exact R2 | split; [exact R3 |]]]].
  - rewrite O3, O2, O1. unfold stdout, prints. simpl.
    now rewrite <- !app_assoc.
  - split.
    + rewrite T3, T2, T1. unfold prints. simpl. now rewrite <- !app_assoc.
    + rewrite L3, L2, L1. reflexivity.
Qed.

(** On the mock provider with a faulty decapsulation: the three names are
    all reported as failed, none is skipped. *)
Example benchmark_algorithms_on_mock :
  stdout (snd (benchmark_algorithms (Mock.env mismatching) str_of_int
                 (@mkState (with_stdout (Mock.env mismatching))
                    (0, []) [] [])))
  = [(nl ++ "=== Algorithm Benchmark ===")%string;
     "ML-KEM-512: ✗ FAILED"; "ML-KEM-768: ✗ FAILED";
     "ML-KEM-1024: ✗ FAILED"].
Proof. vm_compute. reflexivity. Qed.

(** ** [show_available_algorithms] *)

Lemma for_enumerated_run (P : Env) names : forall i s,
  for_enumerated P i names s = (Returns tt, prints (numbered i names) s).
Proof.
  induction names as [| alg rest IH]; intros i s.
  - simpl. unfold ret. now rewrite prints_nil.
  - cbn [for_enumerated numbered].
    rewrite (bind_returns _ _ _ _ _ _ (print_run P _ s)), IH, prints_prints.
    reflexivity.
Qed.

Lemma numbered_length names : forall i,
  List.length (numbered i names) = List.length names.
Proof. induction names as [| a l IH]; intros i; simpl; auto. Qed.

Lemma family_lines_length names :
  List.length (family_lines names)
  = (Nat.min 10 (List.length names)
     + if Nat.ltb 10 (List.length names) then 1 else 0)%nat.
Proof.
  unfold family_lines, len.
  rewrite length_app, numbered_length, length_firstn.
  destruct (Nat.ltb_spec 10 (List.length names)) as [H | H].
  - replace (10 <? Z.of_nat (List.length names)) with true; [reflexivity |].
    symmetry. apply Z.ltb_lt. lia.
  - replace (10 <? Z.of_nat (List.length names)) with false; [reflexivity |].
    symmetry. apply Z.ltb_ge. lia.
Qed.

(** Runs the listing along given answers of the provider. *)
Ltac run_listing :=
  unfold show_available_algorithms, mechanisms_keys, mechanisms_len,
    try_except, bind, ret, call, print;
  repeat (cbn -[str_of_int String.append len firstn Z.sub Z.ltb
                for_enumerated numbered];
          unfold below;
          cbn -[str_of_int String.append len firstn Z.sub Z.ltb
                for_enumerated numbered];
          match goal with
          | H : _ = (_, _) |- _ => rewrite H
          | |- context [for_enumerated ?P ?i ?l ?s] =>
              rewrite (for_enumerated_run P l i s); unfold prints
          | |- context [10 <? ?n] => destruct (10 <? n)
          end).

Ltac finish_listing :=
  cbn [world trace logged fst snd]; repeat rewrite <- app_assoc;
  cbn [app]; rewrite ?app_nil_r; reflexivity.

Section Listing.

Variable P : Env.
Variables (w : World P) (out : list string) (tr : list Event)
          (lg : list (Level * string)).

Let start : State (with_stdout P) := @mkState (with_stdout P) (w, out) tr lg.

(** Both calls return mappings: the full listing. *)
Lemma listing_of_mappings kems sigs w1 w2 :
  get_enabled_kem_mechanisms P w = (Returns (Mapping kems), w1) ->
  get_enabled_sig_mechanisms P w1 = (Returns (Mapping sigs), w2) ->
  show_available_algorithms P start
  = (Returns tt,
     @mkState (with_stdout P)
       (w2,
        out ++
        ["=== Available Algorithms ===";
         ("KEM Mechanisms (" ++ str_of_int (len kems) ++ "):")%string]
        ++ family_lines kems
        ++ [(nl ++ "Signature Mechanisms (" ++ str_of_int (len sigs)
               ++ "):")%string]
        ++ family_lines sigs)
       (tr ++ [EvEnabledKem; EvEnabledSig]) lg).
Proof.
  intros H1 H2. unfold start, family_lines. run_listing.
  all: finish_listing.
Qed.

(** The KEM names come as a tuple: the heading, then the error. *)
Lemma listing_of_kem_tuple kems m w1 w2 :
  get_enabled_kem_mechanisms P w = (Returns (Tuple kems), w1) ->
  get_enabled_sig_mechanisms P w1 = (Returns m, w2) ->
  show_available_algorithms P start
  = (Returns tt,
     @mkState (with_stdout P)
       (w2,
        out ++
        ["=== Available Algorithms ===";
         ("KEM Mechanisms (" ++ str_of_int (len kems) ++ "):")%string;
         "Error getting algorithms: 'tuple' object has no attribute 'keys'"])
       (tr ++ [EvEnabledKem; EvEnabledSig]) lg).
Proof.
  intros H1 H2. unfold start. run_listing.
  all: finish_listing.
Qed.

(** The signature names come as a tuple: the KEM listing, the second
    heading, then the error. *)
Lemma listing_of_sig_tuple kems sigs w1 w2 :
  get_enabled_kem_mechanisms P w = (Returns (Mapping kems), w1) ->
  get_enabled_sig_mechanisms P w1 = (Returns (Tuple sigs), w2) ->
  show_available_algorithms P start
  = (Returns tt,
     @mkState (with_stdout P)
       (w2,
        out ++
        ["=== Available Algorithms ===";
         ("KEM Mechanisms (" ++ str_of_int (len kems) ++ "):")%string]
        ++ family_lines kems
        ++ [(nl ++ "Signature Mechanisms (" ++ str_of_int (len sigs)
               ++ "):")%string;
            "Error getting algorithms: 'tuple' object has no attribute 'keys'"])
       (tr ++ [EvEnabledKem; EvEnabledSig]) lg).
Proof.
  intros H1 H2. unfold start, family_lines. run_listing.
  all: finish_listing.
Qed.

(** The first call raises: nothing but the error. *)
Lemma listing_kem_call_raises e w1 :
  get_enabled_kem_mechanisms P w = (Raises e, w1) ->
  show_available_algorithms P start
  = (Returns tt,
     @mkState (with_stdout P)
       (w1,
        out ++ ["=== Available Algorithms ===";
                ("Error getting algorithms: " ++ exc_str e)%string])
       (tr ++ [EvEnabledKem]) lg).
Proof.
  intros H1. unfold start. run_listing.
  all: finish_listing.
Qed.

(** The second call raises: no heading has been printed yet. *)
Lemma listing_sig_call_raises m e w1 w2 :
  get_enabled_kem_mechanisms P w = (Returns m, w1) ->
  get_enabled_sig_mechanisms P w1 = (Raises e, w2) ->
  show_available_algorithms P start
  = (Returns tt,
     @mkState (with_stdout P)
       (w2,
        out ++ ["=== Available Algorithms ===";
                ("Error getting algorithms: " ++ exc_str e)%string])
       (tr ++ [EvEnabledKem; EvEnabledSig]) lg).
Proof.
  intros H1 H2. unfold start. run_listing.
  all: finish_listing.
Qed.

End Listing.

(** X10: [show_available_algorithms] on every provider.  It never raises
    and prints its banner first.  When both provider calls return
    mappings, it prints for each family a heading with the number of
    enabled names, the first ten names numbered from 1 in the provider's
    order and, only when there are more than ten, one line with the count
    of the rest.  When the KEM names come as a tuple, [.keys()] raises
    after the first heading and only the error follows; when the signature
    names do, the KEM listing and the second heading are printed before the
    error.  When either provider call raises, only the banner and the error
    are printed.  No session is opened and the clock is not read. *)
Theorem X10_show_available_algorithms (P : Env) (w : World P)
    (out : list string) (tr : list Event) (lg : list (Level * string)) :
  let start := @mkState (with_stdout P) (w, out) tr lg in
  let banner := "=== Available Algorithms ===" in
  let no_keys :=
    "Error getting algorithms: 'tuple' object has no attribute 'keys'" in
  (exists s' lines,
     show_available_algorithms P start = (Returns tt, s') /\
     stdout s' = out ++ banner :: lines /\
     logged s' = lg /\
     exists calls,
       trace s' = tr ++ EvEnabledKem :: calls /\
       forallb (fun ev => match ev with EvEnabledSig => true | _ => false end)
         calls = true) /\
  (forall kems sigs w1 w2,
     get_enabled_kem_mechanisms P w = (Returns (Mapping kems), w1) ->
     get_enabled_sig_mechanisms P w1 = (Returns (Mapping sigs), w2) ->
     show_available_algorithms P start
     = (Returns tt,
        @mkState (with_stdout P)
          (w2,
           out ++
           [banner;
            ("KEM Mechanisms (" ++ str_of_int (len kems) ++ "):")%string]
           ++ family_lines kems
           ++ [(nl ++ "Signature Mechanisms (" ++ str_of_int (len sigs)
                  ++ "):")%string]
           ++ family_lines sigs)
          (tr ++ [EvEnabledKem; EvEnabledSig]) lg)) /\
  (forall kems m w1 w2,
     get_enabled_kem_mechanisms P w = (Returns (Tuple kems), w1) ->
     get_enabled_sig_mechanisms P w1 = (Returns m, w2) ->
     show_available_algorithms P start
     = (Returns tt,
        @mkState (with_stdout P)
          (w2,
           out ++
           [banner;
            ("KEM Mechanisms (" ++ str_of_int (len kems) ++ "):")%string;
            no_keys])
          (tr ++ [EvEnabledKem; EvEnabledSig]) lg)) /\
  (forall kems sigs w1 w2,
     get_enabled_kem_mechanisms P w = (Returns (Mapping kems), w1) ->
     get_enabled_sig_mechanisms P w1 = (Returns (Tuple sigs), w2) ->
     show_available_algorithms P start
     = (Returns tt,
        @mkState (with_stdout P)
          (w2,
           out ++
           [banner;
            ("KEM Mechanisms (" ++ str_of_int (len kems) ++ "):")%string]
           ++ family_lines kems
           ++ [(nl ++ "Signature Mechanisms (" ++ str_of_int (len sigs)
                  ++ "):")%string;
               no_keys])
          (tr ++ [EvEnabledKem; EvEnabledSig]) lg)) /\
  (forall e w1,
     get_enabled_kem_mechanisms P w = (Raises e, w1) ->
     show_available_algorithms P start
     = (Returns tt,
        @mkState (with_stdout P)
          (w1,
           out ++ [banner; ("Error getting algorithms: " ++ exc_str e)%string])
          (tr ++ [EvEnabledKem]) lg)) /\
  (forall m e w1 w2,
     get_enabled_kem_mechanisms P w = (Returns m, w1) ->
     get_enabled_sig_mechanisms P w1 = (Raises e, w2) ->
     show_available_algorithms P start
     = (Returns tt,
        @mkState (with_stdout P)
          (w2,
           out ++ [banner; ("Error getting algorithms: " ++ exc_str e)%string])
          (tr ++ [EvEnabledKem; EvEnabledSig]) lg)) /\
  (forall names,
     List.length (family_lines names)
     = (Nat.min 10 (List.length names)
        + if Nat.ltb 10 (List.length names) then 1 else 0)%nat) /\
  (forall names i alg,
     nth_error (firstn 10 names) i = Some alg ->
     nth_error (family_lines names) i
     = Some ("  " ++ format_2d (Z.of_nat i + 1) ++ ". " ++ alg)%string).
Proof.
  intros start banner no_keys.
  split; [| split; [| split; [| split; [| split; [| split; [| split]]]]]].
  - destruct (get_enabled_kem_mechanisms P w) as [[m1 | e1] w1] eqn:E1;
      [destruct (get_enabled_sig_mechanisms P w1) as [[m2 | e2] w2] eqn:E2;
         [destruct m1 as [kems | kems]; [destruct m2 as [sigs | sigs] |] |] |].
    all: eexists; eexists.
    all: split;
      [ first
          [ apply (listing_of_mappings P w out tr lg _ _ _ _ E1 E2)
          | apply (listing_of_sig_tuple P w out tr lg _ _ _ _ E1 E2)
          | apply (listing_of_kem_tuple P w out tr lg _ _ _ _ E1 E2)
          | apply (listing_sig_call_raises P w out tr lg _ _ _ _ E1 E2)
          | apply (listing_kem_call_raises P w out tr lg _ _ E1) ] |].
    all: unfold stdout; cbn [world trace logged fst snd].
    all: split; [reflexivity |]; split; [reflexivity |].
    all: first [ exists [EvEnabledSig]; split; reflexivity
               | exists []; split; reflexivity ].
  - apply listing_of_mappings.
  - apply listing_of_kem_tuple.
  - apply listing_of_sig_tuple.
  - apply listing_kem_call_raises.
  - apply listing_sig_call_raises.
  - apply family_lines_length.
  - intros names i alg H. unfold family_lines.
    rewrite nth_error_app1
      by (rewrite numbered_length; apply nth_error_Some; congruence).
    assert (G : forall l j k a,
               nth_error l j = Some a ->
               nth_error (numbered k l) j
               = Some ("  " ++ format_2d (k + Z.of_nat j + 1) ++ ". " ++ a)
                      %string).
    { induction l as [| x l IH]; intros [| j] k a Hn; try discriminate.
      - inversion Hn; subst. simpl. now rewrite Z.add_0_r.
      - simpl in Hn. cbn [numbered nth_error]. rewrite (IH j (k + 1) a Hn).
        replace (k + 1 + Z.of_nat j + 1) with (k + Z.of_nat (S j) + 1) by lia.
        reflexivity. }
    rewrite (G _ _ 0 _ H). reflexivity.
Qed.

Example show_available_algorithms_on_twelve :
  stdout (snd (show_available_algorithms twelve_kems
                 (@mkState (with_stdout twelve_kems) (0, []) [] [])))
  = ["=== Available Algorithms ===";
     "KEM Mechanisms (12):";
     "   1. K1"; "   2. K2"; "   3. K3"; "   4. K4"; "   5. K5";
     "   6. K6"; "   7. K7"; "   8. K8"; "   9. K9"; "  10. K10";
     "      ... and 2 more";
     (nl ++ "Signature Mechanisms (3):")%string;
     "   1. ML-DSA-44"; "   2. ML-DSA-65"; "   3. ML-DSA-87"].
Proof. vm_compute. reflexivity. Qed.

(** A provider that hands back tuples: the code gets as far as the first
    heading. *)
Lemma X10_show_available_algorithms_witness :
  show_available_algorithms tuple_names
    (@mkState (with_stdout tuple_names) (0, []) [] [])
  = (Returns tt,
     @mkState (with_stdout tuple_names)
       (0,
        [] ++
        ["=== Available Algorithms ===";
         ("KEM Mechanisms (" ++ str_of_int (len Mock.kem_names)
            ++ "):")%string;
         "Error getting algorithms: 'tuple' object has no attribute 'keys'"])
       ([] ++ [EvEnabledKem; EvEnabledSig]) []).
Proof.
  destruct (X10_show_available_algorithms tuple_names 0 [] [] [])
    as (_ & _ & Htuple & _).
  apply (Htuple Mock.kem_names (Tuple Mock.sig_names) 0 0); reflexivity.
Defined.

Example show_available_algorithms_on_tuples :
  stdout (snd (show_available_algorithms tuple_names
                 (@mkState (with_stdout tuple_names) (0, []) [] [])))
  = ["=== Available Algorithms ===";
     "KEM Mechanisms (3):";
     "Error getting algorithms: 'tuple' object has no attribute 'keys'"].
Proof. vm_compute. reflexivity. Qed.

(** * Sessions and calls of the runners *)

(** Follows a runner through every outcome of every call. *)
Ltac split_calls :=
  repeat (cbn -[bytes_eqb len Z.sub];
          match goal with
          | |- context [bytes_eqb ?a ?b] => destruct (bytes_eqb a b)
          | |- context [match ?c with _ => _ end] =>
              lazymatch c with
              | context [match _ with _ => _ end] => fail
              | _ => destruct c
              end
          end).

Lemma simulate_kem_exchange_trace (P : Env) alg (s : State P) :
  exists r s' calls,
    simulate_kem_exchange P alg s = (Returns r, s') /\
    trace s' = trace s ++ calls /\
    List.length (filter is_exit calls)
    = kem_sessions_opened P alg (snd (time_time P (world s))) /\
    forallb kem_or_clock calls = true.
Proof.
  destruct s as [w tr lg].
  unfold simulate_kem_exchange, kem_exchange_body, failed_result,
    kem_sessions_opened.
  unfold KeyEncapsulation, KeyEncapsulation_exit, generate_keypair,
    encap_secret, decap_secret, time, try_except, with_, bind, ret, call.
  split_calls.
  all: eexists; eexists; eexists; split; [reflexivity |].
  all: cbn [world trace logged fst snd]; repeat rewrite <- app_assoc.
  all: split; [reflexivity |]; split; reflexivity.
Qed.

Lemma simulate_digital_signature_trace (P : Env) alg message (s : State P) :
  exists r s' calls,
    simulate_digital_signature P alg message s = (Returns r, s') /\
    trace s' = trace s ++ calls /\
    List.length (filter is_exit calls)
    = sig_sessions_opened P alg (snd (time_time P (world s))) /\
    forallb sig_or_clock calls = true.
Proof.
  destruct s as [w tr lg].
  unfold simulate_digital_signature, digital_signature_body, failed_result,
    sig_sessions_opened.
  unfold Signature, Signature_exit, sig_keypair, sign, verify, time,
    try_except, with_, bind, ret, call.
  split_calls.
  all: eexists; eexists; eexists; split; [reflexivity |].
  all: cbn [world trace logged fst snd]; repeat rewrite <- app_assoc.
  all: split; [reflexivity |]; split; reflexivity.
Qed.

(** X11: every session a runner opens is left exactly once, on every path.
    Whatever the provider does after the sessions are opened (a key pair,
    an encapsulation, a signature or a verification that raises, or the
    exit of the other session raising), the number of exits the runner has
    made when it returns equals the number of sessions the provider opened
    for it: none, one or two.  This holds for both runners. *)
Theorem X11_sessions_are_left_once (P : Env) alg message (s : State P) :
  (exists r s' calls,
     simulate_kem_exchange P alg s = (Returns r, s') /\
     trace s' = trace s ++ calls /\
     List.length (filter is_exit calls)
     = kem_sessions_opened P alg (snd (time_time P (world s)))) /\
  (exists r s' calls,
     simulate_digital_signature P alg message s = (Returns r, s') /\
     trace s' = trace s ++ calls /\
     List.length (filter is_exit calls)
     = sig_sessions_opened P alg (snd (time_time P (world s)))).
Proof.
  split.
  - destruct (simulate_kem_exchange_trace P alg s)
      as (r & s' & calls & H & Ht & Hn & _).
    exists r, s', calls. auto.
  - destruct (simulate_digital_signature_trace P alg message s)
      as (r & s' & calls & H & Ht & Hn & _).
    exists r, s', calls. auto.
Qed.

(** X12: an operation type that names one kind keeps to that kind's
    interface.  With ["kem"], [benchmark_algorithm] returns the one KEM
    result and calls only the clock and the KEM interface: no signature
    session is ever asked for.  With ["sig"] it returns the one signature
    result and never touches the KEM interface. *)
Theorem X12_one_kind_one_interface (P : Env) alg (s : State P) :
  (exists k s' calls,
     benchmark_algorithm P alg "kem" s = (Returns [k], s') /\
     operation k = "KEM Exchange" /\
     trace s' = trace s ++ calls /\ forallb kem_or_clock calls = true) /\
  (exists g s' calls,
     benchmark_algorithm P alg "sig" s = (Returns [g], s') /\
     operation g = "Digital Signature" /\
     trace s' = trace s ++ calls /\ forallb sig_or_clock calls = true).
Proof.
  split.
  - destruct (simulate_kem_exchange_trace P alg s)
      as (k & s' & calls & H & Ht & _ & Hc).
    exists k, s', calls. split; [| split; [| auto]].
    + rewrite benchmark_algorithm_attempts. unfold attempts, bind, ret.
      simpl. now rewrite H.
    + apply (simulate_kem_exchange_header P _ _ _ _ H).
  - destruct (simulate_digital_signature_trace P alg default_message s)
      as (g & s' & calls & H & Ht & _ & Hc).
    exists g, s', calls. split; [| split; [| auto]].
    + rewrite benchmark_algorithm_attempts. unfold attempts, bind, ret.
      simpl. now rewrite H.
    + apply (simulate_digital_signature_header P _ _ _ _ _ H).
Qed.

(** ** Keys and results of a report *)

Lemma set_Forall_entries {V : Type} (R : string -> V -> Prop)
    (d : Dict.t V) k v :
  Forall (fun e => R (fst e) (snd e)) d -> R k v ->
  Forall (fun e => R (fst e) (snd e)) (Dict.set d k v).
Proof.
  intros Hd Hv. induction d as [| [k' v'] d IH]; simpl.
  - now constructor.
  - inversion Hd; subst. destruct (String.eqb k k') eqn:E.
    + apply String.eqb_eq in E. subst k'. now constructor.
    + constructor; auto.
Qed.

Lemma for_algorithms_named (P : Env) algs : forall d (s s' : State P) d',
  for_algorithms P (fun alg => benchmark_algorithm P alg "both") algs d s
    = (Returns d', s') ->
  Forall (fun e => Forall (fun r => algorithm r = fst e) (snd e)) d ->
  Forall (fun e => Forall (fun r => algorithm r = fst e) (snd e)) d'.
Proof.
  induction algs as [| alg rest IH]; intros d s s' d' H Hd.
  - inversion H; subst. exact Hd.
  - destruct (benchmark_algorithm_both P alg (announced alg s))
      as (k & s1 & g & s2 & Hk & Hg & Hboth).
    rewrite (for_algorithms_cons P _ _ _ _ _ _ _
               (benchmark_entry_returns P _ alg d _ _ _ Hboth)) in H.
    apply (IH _ _ _ _ H).
    apply (set_Forall_entries
             (fun key rs => Forall (fun r => algorithm r = key) rs));
      [exact Hd |].
    repeat constructor.
    + apply (simulate_kem_exchange_header P _ _ _ _ Hk).
    + apply (simulate_digital_signature_header P _ _ _ _ _ Hg).
Qed.

(** X13: a report files every result under its own algorithm.  In the
    report [run_comprehensive_benchmark] returns, every result listed
    under a key carries that key in its [algorithm] field, also when the
    same name was listed more than once; and no key occurs twice. *)
Theorem X13_results_are_filed_under_their_name (P : Env) algorithms
    (s s' : State P) d :
  run_comprehensive_benchmark P algorithms s = (Returns d, s') ->
  NoDup (Dict.keys d) /\
  Forall (fun e => Forall (fun r => algorithm r = fst e) (snd e)) d.
Proof.
  unfold run_comprehensive_benchmark, run_comprehensive_benchmark_with.
  set (algs := match algorithms with
               | Some l => l
               | None => default_algorithms
               end).
  intros Hrun. split.
  - rewrite (for_algorithms_keys P _ _ _ _ _ _ Hrun), fold_add_key. simpl.
    rewrite filter_all by reflexivity.
    clear. induction algs as [| x l IH]; simpl; constructor.
    + rewrite filter_In, negb_true_iff, String.eqb_neq. tauto.
    + now apply NoDup_filter.
  - apply (for_algorithms_named P algs _ _ _ _ Hrun). constructor.
Qed.

Lemma X13_results_are_filed_under_their_name_witness :
  let run := run_comprehensive_benchmark (Mock.env Mock.sound)
               (Some ["ML-DSA-44"; "ML-KEM-512"; "ML-DSA-44"])
               (Mock.start Mock.sound 0) in
  exists d,
    fst run = Returns d /\
    NoDup (Dict.keys d) /\
    Forall (fun e => Forall (fun r => algorithm r = fst e) (snd e)) d.
Proof.
  intros run. eexists. split; [vm_compute; reflexivity |].
  apply (X13_results_are_filed_under_their_name (Mock.env Mock.sound)
           (Some ["ML-DSA-44"; "ML-KEM-512"; "ML-DSA-44"])
           (Mock.start Mock.sound 0) (snd run)).
  vm_compute. reflexivity.
Defined.
